(** * ETL de ventas: a shallow embedding of [src/main.py]

    The pipeline of [main.py] works on pandas data frames.  A data frame is
    modelled as the ordered list of its rows, each row carrying its index
    label; a cell of a float column is an exact rational extended with the
    IEEE special values the code handles explicitly ([np.nan], [np.inf],
    [-np.inf]); rounding and overflow of the binary64 format are not
    modelled.  Stages that log or write files run in a small state monad
    over a [World] holding the file system and the log. *)

From Stdlib Require Import PrimFloat.
From stdpp Require Import gmap strings.
From Stdlib Require Import Ascii String List ZArith QArith Qcanon Lia Permutation Sorted.
Import ListNotations.

Local Open Scope nat_scope.
Local Open Scope string_scope.
Local Open Scope list_scope.

(** ** Numeric cells *)

Module Num.

(** A cell of a numeric column after [pd.to_numeric]: [NaN] is pandas' null. *)
Inductive num : Type :=
  | NaN
  | NInf
  | Fin (q : Qc)
  | PInf.

Definition of_Z (z : Z) : num := Fin (Q2Qc (inject_Z z)).
Definition of_nat (n : nat) : num := of_Z (Z.of_nat n).
Definition zero : num := of_Z 0.

(** [Series.isna()] on one cell. *)
Definition isna (x : num) : bool :=
  match x with NaN => true | _ => false end.

Definition notna (x : num) : bool := negb (isna x).

Definition isinf (x : num) : bool :=
  match x with NInf | PInf => true | _ => false end.

(** Sign of a finite value, as a comparison with zero. *)
Definition sgn (q : Qc) : comparison := (q ?= 0)%Qc.

(** [x <= 0] on one cell; a comparison with NaN is [False]. *)
Definition le0 (x : num) : bool :=
  match x with
  | NaN => false
  | NInf => true
  | Fin q => match sgn q with Gt => false | _ => true end
  | PInf => false
  end.

(** [x <= y], total on the non-NaN values, [False] when either is NaN. *)
Definition le (x y : num) : bool :=
  match x, y with
  | NaN, _ | _, NaN => false
  | NInf, _ => true
  | _, PInf => true
  | PInf, _ => false
  | _, NInf => false
  | Fin a, Fin b => match (a ?= b)%Qc with Gt => false | _ => true end
  end.

(** [x < y]. *)
Definition lt (x y : num) : bool :=
  match x, y with
  | NaN, _ | _, NaN => false
  | PInf, _ => false
  | _, NInf => false
  | NInf, _ => true
  | _, PInf => true
  | Fin a, Fin b => match (a ?= b)%Qc with Lt => true | _ => false end
  end.

Definition add (x y : num) : num :=
  match x, y with
  | NaN, _ | _, NaN => NaN
  | PInf, NInf | NInf, PInf => NaN
  | PInf, _ | _, PInf => PInf
  | NInf, _ | _, NInf => NInf
  | Fin a, Fin b => Fin (a + b)
  end.

(** An infinity of the sign of [c]; [inf * 0] is NaN. *)
Definition inf_of_sign (c : comparison) : num :=
  match c with Gt => PInf | Lt => NInf | Eq => NaN end.

Definition sign_mul (c d : comparison) : comparison :=
  match c, d with
  | Eq, _ | _, Eq => Eq
  | Gt, Gt | Lt, Lt => Gt
  | _, _ => Lt
  end.

Definition sign (x : num) : comparison :=
  match x with
  | NaN => Eq
  | NInf => Lt
  | Fin q => sgn q
  | PInf => Gt
  end.

Definition mul (x y : num) : num :=
  match x, y with
  | NaN, _ | _, NaN => NaN
  | Fin a, Fin b => Fin (a * b)
  | _, _ => inf_of_sign (sign_mul (sign x) (sign y))
  end.

(** True division of two cells: a finite value over zero is an infinity of
    its sign, [0 / 0] and [inf / inf] are NaN. *)
Definition div (x y : num) : num :=
  match x, y with
  | NaN, _ | _, NaN => NaN
  | Fin a, Fin b =>
      match sgn b with
      | Eq => inf_of_sign (sgn a)
      | _ => Fin (a / b)
      end
  | Fin _, _ => zero
  | _, Fin b =>
      match sgn b with
      | Eq => x
      | c => inf_of_sign (sign_mul (sign x) c)
      end
  | _, _ => NaN
  end.

(** [Series.sum()] and the group-by ["sum"]: nulls are skipped, the sum of
    no value is 0. *)
Definition sum (l : list num) : num :=
  fold_right add zero (List.filter notna l).

End Num.

Export Num (num, NaN, NInf, Fin, PInf).

(** ** Records and data frames *)

(** A [pd.Timestamp] in nanoseconds since the epoch; [None] is [NaT]. *)
Definition Timestamp : Type := Z.

(** A text cell after [normalizar_texto]; [None] is the null. *)
Definition Text : Type := option string.

(** One transaction row with the six configured columns. *)
Record Row : Type := mkRow {
  fecha : option Timestamp;
  producto : Text;
  vendedor : Text;
  sucursal : Text;
  cantidad : num;
  precio_unitario : num
}.

(** A row after [crear_monto_total]. *)
Record RowM : Type := mkRowM {
  base : Row;
  monto_total : num
}.

(** A data frame: its rows in order, each with its index label. *)
Definition DataFrame (A : Type) : Type := list (nat * A).

Definition index {A} (df : DataFrame A) : list nat := map fst df.
Definition rows {A} (df : DataFrame A) : list A := map snd df.

(** [pd.concat(..., ignore_index=True)]: labels 0 .. n-1. *)
Definition reset_index {A} (l : list A) : DataFrame A :=
  combine (seq 0 (length l)) l.

(** [df[mask]] with a boolean mask computed row by row from [df]. *)
Definition loc_mask {A} (mask : A -> bool) (df : DataFrame A) : DataFrame A :=
  List.filter (fun p => mask (snd p)) df.

(** [df.drop(labels)]: every row whose label is listed goes. *)
Definition drop {A} (labels : list nat) (df : DataFrame A) : DataFrame A :=
  List.filter (fun p => negb (existsb (Nat.eqb (fst p)) labels)) df.

(** [df.head(n)] for a count [n]. *)
Definition head {A} (n : nat) (l : list A) : list A := firstn n l.

(** [DataFrame.empty]. *)
Definition empty {A} (df : DataFrame A) : bool :=
  match df with [] => true | _ => false end.

Definition isna_opt {A} (o : option A) : bool :=
  match o with None => true | Some _ => false end.

(** ** The world: file system and log *)

Inductive level : Type := DEBUG | INFO | WARNING | ERROR | CRITICAL.

(** The messages of the stages, with the numbers they interpolate. *)
Inductive message : Type :=
  | MsgTipificacion
  | MsgDuplicados (dup : nat)
  | MsgNulos (celdas : nat)
  | MsgRechazados (n : nat) (ruta : string)
  | MsgValidos (n : nat)
  | MsgMontoTotal
  | MsgResumen
  | MsgTopProductos (n : nat)
  | MsgTopVendedores (n : nat).

(** One line of a delimited file written with [index=False]. *)
Inductive csv_line : Type :=
  | Header
  | Line (r : Row).

(** The file system is idealised: a path names at most one file, and its
    operations always succeed. *)
Record World : Type := mkWorld {
  files : gmap string (list csv_line);
  dirs : gset string;
  log : list (level * message)
}.

Definition M (A : Type) : Type := World -> A * World.

Definition ret {A} (a : A) : M A := fun w => (a, w).

Definition bind {A B} (m : M A) (k : A -> M B) : M B :=
  fun w => let (a, w') := m w in k a w'.

Notation "x <- m ;; k" := (bind m (fun x => k))
  (at level 100, m at next level, right associativity).
Notation "m ;;; k" := (bind m (fun _ => k))
  (at level 100, right associativity).

Definition logging (lv : level) (msg : message) : M unit :=
  fun w => (tt, mkWorld (files w) (dirs w) (log w ++ [(lv, msg)])).

(** [os.path.exists]. *)
Definition path_exists (p : string) : M bool :=
  fun w => (bool_decide (is_Some (files w !! p)) || bool_decide (p ∈ dirs w), w).

(** [os.makedirs(d, exist_ok=True)]. *)
Definition makedirs (d : string) : M unit :=
  fun w => (tt, mkWorld (files w) ({[ d ]} ∪ dirs w) (log w)).

Inductive mode : Type := ModeW | ModeA.

(** [df.to_csv(path, index=False, mode=modo, header=header)]. *)
Definition to_csv (df : DataFrame Row) (path : string) (modo : mode)
    (header : bool) : M unit :=
  fun w =>
    let old := match modo with
               | ModeW => []
               | ModeA => default [] (files w !! path)
               end in
    let new := (if header then [Header] else []) ++ map Line (rows df) in
    (tt, mkWorld (<[ path := old ++ new ]> (files w)) (dirs w) (log w)).

(** [os.path.dirname] on a POSIX path. *)
Fixpoint drop_to_slash (l : list ascii) : list ascii :=
  match l with
  | [] => []
  | c :: l' => if Ascii.eqb c "/"%char then l else drop_to_slash l'
  end.

Fixpoint drop_slashes (l : list ascii) : list ascii :=
  match l with
  | [] => []
  | c :: l' => if Ascii.eqb c "/"%char then drop_slashes l' else l
  end.

Definition dirname (p : string) : string :=
  let head_rev := drop_to_slash (rev (list_ascii_of_string p)) in
  match drop_slashes head_rev with
  | [] => string_of_list_ascii (rev head_rev)
  | l => string_of_list_ascii (rev l)
  end.

(** ** RuleValidator: [validar_reglas_negocio] *)

Section RuleValidator.

(** [pd.to_datetime(datetime.today().date())]: the run date at midnight. *)
Variable hoy : Timestamp.

Definition mask_futuras (r : Row) : bool :=
  match fecha r with
  | Some t => Z.ltb hoy t
  | None => false
  end.

Definition mask_precio_invalido (r : Row) : bool :=
  Num.le0 (precio_unitario r) || Num.isna (precio_unitario r).

Definition mask_cantidad_invalida (r : Row) : bool :=
  Num.le0 (cantidad r) || Num.isna (cantidad r).

Definition mask_fecha_invalida (r : Row) : bool :=
  isna_opt (fecha r).

Definition mask_rechazo (r : Row) : bool :=
  mask_futuras r || mask_precio_invalido r || mask_cantidad_invalida r
  || mask_fecha_invalida r.

Definition rechazados (df : DataFrame Row) : DataFrame Row :=
  loc_mask mask_rechazo df.

Definition df_valido (df : DataFrame Row) : DataFrame Row :=
  drop (index (rechazados df)) df.

Definition validar_reglas_negocio (df : DataFrame Row)
    (ruta_rechazos : string) : M (DataFrame Row) :=
  (if negb (empty (rechazados df)) then
     makedirs (dirname ruta_rechazos) ;;;
     existe <- path_exists ruta_rechazos ;;
     let modo := if existe then ModeA else ModeW in
     existe' <- path_exists ruta_rechazos ;;
     let encabezado := negb existe' in
     to_csv (rechazados df) ruta_rechazos modo encabezado ;;;
     logging ERROR (MsgRechazados (length (rechazados df)) ruta_rechazos)
   else ret tt) ;;;
  logging INFO (MsgValidos (length (df_valido df))) ;;;
  ret (df_valido df).

End RuleValidator.

Definition ruta_rechazos_default : string := "data/processed/rechazados.csv".


(** ** Generic list operations behind the pandas calls *)

(** Keep the first occurrence of each element, in order. *)
Fixpoint unique {A} (eqb : A -> A -> bool) (l : list A) : list A :=
  match l with
  | [] => []
  | x :: l' => x :: List.filter (fun y => negb (eqb x y)) (unique eqb l')
  end.

Fixpoint insert_sorted {A} (leb : A -> A -> bool) (x : A) (l : list A)
    : list A :=
  match l with
  | [] => [x]
  | y :: l' => if leb x y then x :: l else y :: insert_sorted leb x l'
  end.

(** A stable sort; pandas leaves the order among ties open. *)
Definition sort {A} (leb : A -> A -> bool) (l : list A) : list A :=
  fold_right (insert_sorted leb) [] l.

(** [groupby(key)] with [sort=True]: the distinct keys in key order, each
    with its rows in frame order. *)
Definition groupby {A K} (keqb kleb : K -> K -> bool) (key : A -> K)
    (l : list A) : list (K * list A) :=
  map (fun k => (k, List.filter (fun r => keqb (key r) k) l))
      (sort kleb (unique keqb (map key l))).

(** ** Equality and order of cells *)

Definition num_eqb (x y : num) : bool :=
  match x, y with
  | NaN, NaN | NInf, NInf | PInf, PInf => true
  | Fin a, Fin b => Qeq_bool a b
  | _, _ => false
  end.

Definition opt_eqb {A} (eqb : A -> A -> bool) (x y : option A) : bool :=
  match x, y with
  | None, None => true
  | Some a, Some b => eqb a b
  | _, _ => false
  end.

(** Key order of a group-by: values in their order, the null last. *)
Definition opt_leb {A} (leb : A -> A -> bool) (x y : option A) : bool :=
  match x, y with
  | _, None => true
  | None, Some _ => false
  | Some a, Some b => leb a b
  end.

Definition text_eqb : Text -> Text -> bool := opt_eqb String.eqb.
Definition text_leb : Text -> Text -> bool := opt_leb String.leb.

(** Two rows are duplicates when all their cells agree; nulls agree with
    nulls. *)
Definition row_eqb (a b : Row) : bool :=
  opt_eqb Z.eqb (fecha a) (fecha b)
  && text_eqb (producto a) (producto b)
  && text_eqb (vendedor a) (vendedor b)
  && text_eqb (sucursal a) (sucursal b)
  && num_eqb (cantidad a) (cantidad b)
  && num_eqb (precio_unitario a) (precio_unitario b).

(** ** TypeCoercer: [tipificar_campos] *)

(** A cell as [pd.read_csv] leaves it: text of an object column or a number
    of a numeric column (its null is [CNum NaN]). *)
Inductive cell : Type :=
  | CStr (s : string)
  | CNum (x : num).

Record RawRow : Type := mkRawRow {
  raw_fecha : cell;
  raw_producto : Text;
  raw_vendedor : Text;
  raw_sucursal : Text;
  raw_cantidad : cell;
  raw_precio_unitario : cell
}.

Inductive errors_mode : Type := ErrRaise | ErrCoerce.

Section TypeCoercer.

(** The parsers are pandas'.  [pd.to_datetime] settles on one format for the
    column, [inferir_formato col], and reads every cell under it:
    [parse_datetime f c] is [None] when the cell does not fit the format and
    [Some] of the value read (possibly the null) when it does.  Some columns
    make the call raise whatever [errors] is, such as texts that carry
    different UTC offsets: [lanza_datetime col].  [pd.to_numeric] reads cell
    by cell: [parse_numeric c] is [None] when the cell is not a number. *)
Context {formato : Type}.
Variable inferir_formato : list cell -> formato.
Variable parse_datetime : formato -> cell -> option (option Timestamp).
Variable lanza_datetime : list cell -> bool.
Variable parse_numeric : cell -> option num.

(** Apply a parser to a column under [errors=...]: with ["raise"] one bad
    value fails the whole call, with ["coerce"] it becomes the null. *)
Fixpoint convert {A} (parse : cell -> option A) (null : A)
    (errors : errors_mode) (col : list cell) : option (list A) :=
  match col with
  | [] => Some []
  | c :: col' =>
      match parse c, errors with
      | Some v, _ => option_map (cons v) (convert parse null errors col')
      | None, ErrCoerce =>
          option_map (cons null) (convert parse null errors col')
      | None, ErrRaise => None
      end
  end.

Definition to_datetime (col : list cell) (errors : errors_mode)
    : option (list (option Timestamp)) :=
  if lanza_datetime col then None
  else convert (parse_datetime (inferir_formato col)) None errors col.

Definition to_numeric (col : list cell) (errors : errors_mode)
    : option (list num) :=
  convert parse_numeric NaN errors col.

(** The frame after the three column assignments. *)
Fixpoint assign (df : DataFrame RawRow) (fs : list (option Timestamp))
    (cs ps : list num) : DataFrame Row :=
  match df, fs, cs, ps with
  | (i, r) :: df', f :: fs', c :: cs', p :: ps' =>
      (i, mkRow f (raw_producto r) (raw_vendedor r) (raw_sucursal r) c p)
      :: assign df' fs' cs' ps'
  | _, _, _, _ => []
  end.

(** [None] stands for an exception leaving the function. *)
Definition tipificar_campos (df : DataFrame RawRow)
    : World -> option (DataFrame Row * World) :=
  fun w =>
    match to_datetime (map raw_fecha (rows df)) ErrCoerce with
    | None => None
    | Some fs =>
        match to_numeric (map raw_cantidad (rows df)) ErrCoerce with
        | None => None
        | Some cs =>
            match to_numeric (map raw_precio_unitario (rows df)) ErrCoerce with
            | None => None
            | Some ps =>
                Some (assign df fs cs ps,
                      snd (logging INFO MsgTipificacion w))
            end
        end
    end.

End TypeCoercer.

(** ** Deduplicator: [limpiar_duplicados_y_nulos] *)

Definition drop_duplicates (df : DataFrame Row) : DataFrame Row :=
  unique (fun p q => row_eqb (snd p) (snd q)) df.

(** [df[criticos].isna()] summed over one row. *)
Definition nulos_criticos (r : Row) : nat :=
  (if isna_opt (fecha r) then 1 else 0)
  + (if isna_opt (producto r) then 1 else 0)
  + (if Num.isna (cantidad r) then 1 else 0)
  + (if Num.isna (precio_unitario r) then 1 else 0).

Definition contar_nulos (df : DataFrame Row) : nat :=
  list_sum (map nulos_criticos (rows df)).

(** [df.dropna(subset=criticos)]. *)
Definition dropna_criticos (df : DataFrame Row) : DataFrame Row :=
  List.filter (fun p => Nat.eqb (nulos_criticos (snd p)) 0) df.

Definition limpiar_duplicados_y_nulos (df : DataFrame Row)
    : M (DataFrame Row) :=
  let antes := length df in
  let df1 := drop_duplicates df in
  let dup := antes - length df1 in
  (if Nat.ltb 0 dup then logging WARNING (MsgDuplicados dup) else ret tt) ;;;
  let nulos_antes := contar_nulos df1 in
  let df2 := dropna_criticos df1 in
  let nulos_despues := contar_nulos df2 in
  (if Nat.ltb nulos_despues nulos_antes
   then logging WARNING (MsgNulos (nulos_antes - nulos_despues))
   else ret tt) ;;;
  ret df2.

(** ** Aggregator *)

Definition crear_monto_fila (r : Row) : RowM :=
  mkRowM r (Num.mul (cantidad r) (precio_unitario r)).

Definition crear_monto_total (df : DataFrame Row) : M (DataFrame RowM) :=
  let df' := map (fun p => (fst p, crear_monto_fila (snd p))) df in
  logging INFO MsgMontoTotal ;;;
  ret df'.

Definition ns_por_dia : Z := 86400000000000.

(** [Series.dt.date]: the calendar day of a timestamp. *)
Definition dt_date (f : option Timestamp) : option Z :=
  option_map (fun t => Z.div t ns_por_dia) f.

(** One row of the daily summary; [g_fecha] and [g_sucursal] are its
    [fecha] and [sucursal] columns. *)
Record SummaryRow : Type := mkSummaryRow {
  g_fecha : option Z;
  g_sucursal : Text;
  ventas_totales : num;
  unidades : num;
  tickets : nat;
  ticket_promedio : num
}.

Definition Clave : Type := (option Z * Text)%type.

Definition clave_eqb (a b : Clave) : bool :=
  opt_eqb Z.eqb (fst a) (fst b) && text_eqb (snd a) (snd b).

Definition clave_leb (a b : Clave) : bool :=
  if opt_eqb Z.eqb (fst a) (fst b)
  then text_leb (snd a) (snd b)
  else opt_leb Z.leb (fst a) (fst b).

Definition clave (r : RowM) : Clave :=
  (dt_date (fecha (base r)), sucursal (base r)).

(** [Series.count()]: the non-null cells. *)
Definition count_notna {A B} (col : A -> option B) (l : list A) : nat :=
  length (List.filter (fun r => negb (isna_opt (col r))) l).

(** [Series.replace([np.inf, -np.inf], np.nan)] on one cell. *)
Definition replace_inf (x : num) : num :=
  if Num.isinf x then NaN else x.

Definition fila_resumen (g : Clave * list RowM) : SummaryRow :=
  let ventas := Num.sum (map monto_total (snd g)) in
  let uds := Num.sum (map (fun r => cantidad (base r)) (snd g)) in
  let tks := count_notna (fun r => producto (base r)) (snd g) in
  mkSummaryRow (fst (fst g)) (snd (fst g)) ventas uds tks
    (replace_inf (Num.div ventas (Num.of_nat tks))).

Definition resumen_diario_por_sucursal (df : DataFrame RowM)
    : M (DataFrame SummaryRow) :=
  let g := reset_index
             (map fila_resumen (groupby clave_eqb clave_leb clave (rows df))) in
  logging INFO MsgResumen ;;;
  ret g.

(** [df.groupby(col)["monto_total"].sum()]: rows with a null key are left
    out ([dropna=True]). *)
Definition groupby_sum (col : RowM -> Text) (l : list RowM)
    : list (Text * num) :=
  map (fun g => (fst g, Num.sum (map monto_total (snd g))))
      (groupby text_eqb text_leb col
         (List.filter (fun r => negb (isna_opt (col r))) l)).

(** Position of a value before another in [sort_values]; nulls go last. *)
Definition asc_leb (x y : num) : bool :=
  Num.isna y || (Num.notna x && Num.le x y).

Definition desc_leb (x y : num) : bool :=
  Num.isna y || (Num.notna x && Num.le y x).

Definition sort_values (ascending : bool) (s : list (Text * num))
    : list (Text * num) :=
  sort (fun a b => (if ascending then asc_leb else desc_leb) (snd a) (snd b)) s.

Definition top_productos (df : DataFrame RowM) (n : nat)
    : M (DataFrame (Text * num)) :=
  let g := reset_index
             (head n (sort_values false
                        (groupby_sum (fun r => producto (base r)) (rows df)))) in
  logging INFO (MsgTopProductos n) ;;;
  ret g.

Definition sin_vendedor : string := "Sin Vendedor".

(** [Series.fillna(v)] on one text cell. *)
Definition fillna (v : string) (t : Text) : Text :=
  match t with None => Some v | Some _ => t end.

Definition fillna_vendedor (r : RowM) : RowM :=
  let b := base r in
  mkRowM (mkRow (fecha b) (producto b) (fillna sin_vendedor (vendedor b))
            (sucursal b) (cantidad b) (precio_unitario b))
         (monto_total r).

Definition top_vendedores (df : DataFrame RowM) (n : nat)
    : M (DataFrame (Text * num)) :=
  let df2 := map (fun p => (fst p, fillna_vendedor (snd p))) df in
  let g := reset_index
             (head n (sort_values true
                        (groupby_sum (fun r => vendedor (base r)) (rows df2)))) in
  logging INFO (MsgTopVendedores n) ;;;
  ret g.

(** ** Predicates used in the statements *)

(** [x <= 0] for a cell, as a proposition. *)
Definition NoPositivo (x : num) : Prop :=
  x = NInf \/ exists q, x = Fin q /\ (q <= 0)%Qc.

(** The four business rules, as [validar_reglas_negocio] tests them: the
    fecha of a row is an instant, and it is compared with the midnight that
    starts the run date. *)
Definition FechaFutura (hoy : Timestamp) (r : Row) : Prop :=
  exists t, fecha r = Some t /\ (hoy < t)%Z.

Definition PrecioInvalido (r : Row) : Prop :=
  NoPositivo (precio_unitario r) \/ precio_unitario r = NaN.

Definition CantidadInvalida (r : Row) : Prop :=
  NoPositivo (cantidad r) \/ cantidad r = NaN.

Definition FechaNula (r : Row) : Prop := fecha r = None.

Definition ViolaRegla (hoy : Timestamp) (r : Row) : Prop :=
  FechaFutura hoy r \/ PrecioInvalido r \/ CantidadInvalida r \/ FechaNula r.

(** The data rows of a delimited file, and those of the file at a path. *)
Definition data_rows (c : list csv_line) : list Row :=
  flat_map (fun l => match l with Line r => [r] | Header => [] end) c.

Definition sink_rows (ruta : string) (w : World) : list Row :=
  data_rows (default [] (files w !! ruta)).

(** Number of rows of a list that equal [r] cell by cell. *)
Definition veces (r : Row) (l : list Row) : nat :=
  length (List.filter (row_eqb r) l).

(** No two positions of a list are related by [eqb]. *)
Definition Distinct {A} (eqb : A -> A -> bool) (l : list A) : Prop :=
  ForallOrdPairs (fun x y => eqb x y = false) l.

(** A boolean test that labels are pairwise distinct. *)
Fixpoint nodupb (l : list nat) : bool :=
  match l with
  | [] => true
  | x :: l' => negb (existsb (Nat.eqb x) l') && nodupb l'
  end.

(** The critical fields of a row are all present. *)
Definition CriticosPresentes (r : Row) : Prop :=
  fecha r <> None /\ producto r <> None /\ cantidad r <> NaN
  /\ precio_unitario r <> NaN.

(** What [errors="coerce"] makes of one cell. *)
Definition coerce {A} (parse : cell -> option A) (null : A) (c : cell) : A :=
  match parse c with Some v => v | None => null end.

(** One row after the three coercions. *)
Definition tipificar_fila (parse_datetime : cell -> option (option Timestamp))
    (parse_numeric : cell -> option num) (p : nat * RawRow) : nat * Row :=
  (fst p,
   mkRow (coerce parse_datetime None (raw_fecha (snd p)))
         (raw_producto (snd p)) (raw_vendedor (snd p)) (raw_sucursal (snd p))
         (coerce parse_numeric NaN (raw_cantidad (snd p)))
         (coerce parse_numeric NaN (raw_precio_unitario (snd p)))).

(** Order of two non-null cells, as propositions. *)
Definition NumLe (x y : num) : Prop :=
  match x, y with
  | NaN, _ | _, NaN => False
  | NInf, _ => True
  | _, PInf => True
  | PInf, _ => False
  | _, NInf => False
  | Fin a, Fin b => (a <= b)%Qc
  end.

Definition NumLt (x y : num) : Prop :=
  match x, y with
  | NaN, _ | _, NaN => False
  | PInf, _ => False
  | _, NInf => False
  | NInf, _ => True
  | _, PInf => True
  | Fin a, Fin b => (a < b)%Qc
  end.

(** [x] may stand before [y] in an ascending (descending) ranking: [y] is
    null, or neither is and [x <= y] ([y <= x]). *)
Definition AscOrden (x y : num) : Prop := y = NaN \/ NumLe x y.
Definition DescOrden (x y : num) : Prop := y = NaN \/ NumLe y x.

(** The products and the sellers (null sellers under their label) of a
    frame, as sets. *)
Definition productos (df : DataFrame RowM) : gset string :=
  list_to_set (omap (fun r => producto (base r)) (rows df)).

Definition nombre_vendedor (r : RowM) : string :=
  default sin_vendedor (vendedor (base r)).

Definition vendedores (df : DataFrame RowM) : gset string :=
  list_to_set (map nombre_vendedor (rows df)).

(** The sum of [monto_total] over the rows selected by [sel]. *)
Definition suma_monto (sel : RowM -> bool) (df : DataFrame RowM) : num :=
  Num.sum (map monto_total (List.filter sel (rows df))).

(** ** Sample data *)

(** The scenario of the specification; the run date is 2024-01-01 at
    midnight. *)
Definition hoy_ej : Timestamp := (19723 * ns_por_dia)%Z.

Definition fila_pan : Row :=
  mkRow (Some hoy_ej) (Some "Pan") (Some "Ana") (Some "Centro")
        (Num.of_Z 2) (Num.of_Z 10).

Definition fila_leche : Row :=
  mkRow (Some hoy_ej) (Some "Leche") (Some "Ana") (Some "Centro")
        (Num.of_Z (-1)) (Num.of_Z 5).

Definition df_crudo_ej : DataFrame Row :=
  reset_index [fila_pan; fila_pan; fila_leche].

Definition df_ej : DataFrame Row := [(0, fila_pan); (2, fila_leche)].

Definition df_pan_ej : DataFrame Row := [(0, fila_pan)].

Definition mundo_ej : World := mkWorld ∅ ∅ [].

(** The summary row of the scenario: ("Pan", 2 x 10.0) at "Centro". *)
Definition resumen_pan_ej : SummaryRow :=
  fila_resumen (clave (crear_monto_fila fila_pan), [crear_monto_fila fila_pan]).

(** A valid dataset whose one row has an infinite price. *)
Definition fila_inf : Row :=
  mkRow (Some hoy_ej) (Some "Pan") (Some "Ana") (Some "Centro")
        (Num.of_Z 1) PInf.

Definition df_inf_ej : DataFrame Row := [(0, fila_inf)].

(** A valid dataset in which two products sell for the same amount, one of
    them at a null sucursal. *)
Definition df_empate_ej : DataFrame Row :=
  [(0, mkRow (Some hoy_ej) (Some "Arroz") (Some "Ana") (Some "Centro")
         (Num.of_Z 1) (Num.of_Z 10));
   (1, mkRow (Some hoy_ej) (Some "Bollo") (Some "Bea") None
         (Num.of_Z 2) (Num.of_Z 5))].

(** A frame in which two rows carry the same label. *)
Definition df_etiqueta_repetida_ej : DataFrame Row :=
  [(0, fila_pan); (0, fila_leche)].

(** A sample of the library: one format, under which text never parses and
    numbers do; the column raises when two of its texts end in different UTC
    offsets (+HH:MM). *)
Definition parse_numeric_ej (c : cell) : option num :=
  match c with CStr _ => None | CNum x => Some x end.

Definition parse_datetime_ej (f : unit) (c : cell)
    : option (option Timestamp) :=
  match c with
  | CNum (Fin q) => Some (Some (Qnum q))
  | CNum _ => Some None
  | CStr _ => None
  end.

Definition inferir_formato_ej (col : list cell) : unit := tt.

Definition es_signo (c : option ascii) : bool :=
  match c with
  | Some a => Ascii.eqb a "+"%char || Ascii.eqb a "-"%char
  | None => false
  end.

Definition es_dos_puntos (c : option ascii) : bool :=
  match c with
  | Some a => Ascii.eqb a ":"%char
  | None => false
  end.

Definition desfase (c : cell) : option string :=
  match c with
  | CStr s =>
      let n := String.length s in
      if Nat.leb 6 n && es_signo (String.get (n - 6) s)
         && es_dos_puntos (String.get (n - 3) s)
      then Some (String.substring (n - 6) 6 s)
      else None
  | CNum _ => None
  end.

Definition lanza_datetime_ej (col : list cell) : bool :=
  match omap desfase col with
  | [] => false
  | o :: os => negb (forallb (String.eqb o) os)
  end.

Definition df_raw_ej : DataFrame RawRow :=
  [(0, mkRawRow (CNum (Num.of_Z 5)) (Some "Pan") None (Some "Centro")
         (CStr "dos") (CNum (Num.of_Z 10)));
   (1, mkRawRow (CStr "ayer") (Some "Leche") None None
         (CNum (Num.of_Z 1)) (CStr "x"))].


(** ** Further predicates *)

(** [x > 0] for a cell. *)
Definition Positivo (x : num) : Prop :=
  x = PInf \/ exists q, x = Fin q /\ (0 < q)%Qc.

(** The lines a frame contributes to a delimited file. *)
Definition lineas (df : DataFrame Row) : list csv_line := map Line (rows df).

(** ** Ingestor: [leer_archivos_csv] *)

(** A row as [pd.read_csv] leaves it: six cells.  Text read with
    [encoding='latin1'] has one character per byte, so a [string] holds it
    character by character. *)
Record CsvRow : Type := mkCsvRow {
  csv_fecha : cell;
  csv_producto : cell;
  csv_vendedor : cell;
  csv_sucursal : cell;
  csv_cantidad : cell;
  csv_precio_unitario : cell
}.

(** The log records of the stages around the core, returned by the stage
    that emits them. *)
Inductive evento : Type :=
  | EvArchivoCargado (archivo : string)
  | EvErrorLectura (archivo : string)
  | EvSinArchivos
  | EvNormalizacion
  | EvEstandarizacion
  | EvGuardado (destino : string).

Definition Eventos : Type := list (level * evento).

(** [s.endswith(suf)]. *)
Fixpoint endswith (s suf : string) : bool :=
  if String.eqb s suf then true
  else match s with
       | EmptyString => false
       | String _ s' => endswith s' suf
       end.

(** [os.path.join(a, b)] on POSIX paths. *)
Definition os_path_join (a b : string) : string :=
  if String.prefix "/" b then b
  else if String.eqb a EmptyString || endswith a "/" then a ++ b
  else a ++ "/" ++ b.

Section Ingestor.

(** The environment of the call: what [pd.read_csv(ruta, encoding='latin1')]
    returns for a path, [None] when it raises. *)
Variable read_csv : string -> option (list CsvRow).

Variable ruta_raw : string.

(** The loop over [archivos]: the frames read, and the records logged. *)
Fixpoint leer_bucle (archivos : list string)
    : list (list CsvRow) * Eventos :=
  match archivos with
  | [] => ([], [])
  | archivo :: resto =>
      let ruta := os_path_join ruta_raw archivo in
      let (dataframe, evs) := leer_bucle resto in
      match read_csv ruta with
      | Some df => (df :: dataframe, (INFO, EvArchivoCargado archivo) :: evs)
      | None => (dataframe, (ERROR, EvErrorLectura archivo) :: evs)
      end
  end.

(** [listdir] is what [os.listdir(ruta_raw)] returns. *)
Definition leer_archivos_csv (listdir : list string)
    : DataFrame CsvRow * Eventos :=
  let archivos := List.filter (fun f => endswith f ".csv") listdir in
  let (dataframe, evs) := leer_bucle archivos in
  match dataframe with
  | [] => ([], evs ++ [(WARNING, EvSinArchivos)])
  | _ => (reset_index (concat dataframe), evs)
  end.

End Ingestor.

(** What reading the file named [f] of the directory gives. *)
Definition leer_ruta (read_csv : string -> option (list CsvRow))
    (ruta_raw f : string) : option (list CsvRow) :=
  read_csv (os_path_join ruta_raw f).

(** Sample directory: one readable file, one that is not a CSV file and one
    that does not parse. *)
Definition fila_csv_ej : CsvRow :=
  mkCsvRow (CStr "2024-01-01") (CStr " Pan ") (CNum NaN) (CStr "Centro")
           (CNum (Num.of_Z 2)) (CNum (Num.of_Z 10)).

Definition read_csv_ej (ruta : string) : option (list CsvRow) :=
  if String.eqb ruta "raw/a.csv" then Some [fila_csv_ej; fila_csv_ej]
  else None.

(** ** TextNormalizer: [remover_tildes] and [normalizar_texto] *)

(** [str.isspace] on one character of the Latin-1 range. *)
Definition es_espacio (c : ascii) : bool :=
  let n := nat_of_ascii c in
  (Nat.leb 9 n && Nat.leb n 13) || (Nat.leb 28 n && Nat.leb n 32)
  || Nat.eqb n 133 || Nat.eqb n 160.

Fixpoint lstrip (s : string) : string :=
  match s with
  | EmptyString => EmptyString
  | String c s' => if es_espacio c then lstrip s' else s
  end.

Definition reverso (s : string) : string :=
  string_of_list_ascii (rev (list_ascii_of_string s)).

(** [str.strip()]. *)
Definition strip (s : string) : string :=
  reverso (lstrip (reverso (lstrip s))).

(** A character of which nothing is left. *)
Definition nada : string := EmptyString.

(** For the characters 128 to 255, what is left of the compatibility
    decomposition (NFKD) once the characters outside ASCII are dropped. *)
Definition tabla_latin1 : list string :=
  [
   nada; nada; nada; nada; nada; nada; nada; nada;
   nada; nada; nada; nada; nada; nada; nada; nada;
   nada; nada; nada; nada; nada; nada; nada; nada;
   nada; nada; nada; nada; nada; nada; nada; nada;
   " "; nada; nada; nada; nada; nada; nada; nada;
   " "; nada; "a"; nada; nada; nada; nada; " ";
   nada; nada; "2"; "3"; " "; nada; nada; nada;
   " "; "1"; "o"; nada; "14"; "12"; "34"; nada;
   "A"; "A"; "A"; "A"; "A"; "A"; nada; "C";
   "E"; "E"; "E"; "E"; "I"; "I"; "I"; "I";
   nada; "N"; "O"; "O"; "O"; "O"; "O"; nada;
   nada; "U"; "U"; "U"; "U"; "Y"; nada; nada;
   "a"; "a"; "a"; "a"; "a"; "a"; nada; "c";
   "e"; "e"; "e"; "e"; "i"; "i"; "i"; "i";
   nada; "n"; "o"; "o"; "o"; "o"; "o"; nada;
   nada; "u"; "u"; "u"; "u"; "y"; nada; "y"
  ].

Definition es_ascii (c : ascii) : bool := Nat.ltb (nat_of_ascii c) 128.

(** [unicodedata.normalize('NFKD', c).encode('ASCII', 'ignore')] for one
    character. *)
Definition sin_tildes_car (c : ascii) : string :=
  if es_ascii c then String c EmptyString
  else nth (nat_of_ascii c - 128) tabla_latin1 EmptyString.

(** The same for a text: decomposition works character by character, and
    reordering only moves combining marks, which are dropped. *)
Fixpoint sin_tildes (s : string) : string :=
  match s with
  | EmptyString => EmptyString
  | String c s' => (sin_tildes_car c ++ sin_tildes s')%string
  end.

(** [remover_tildes]: a value that is not a [str] is returned as it is. *)
Definition remover_tildes (texto : Text) : Text := option_map sin_tildes texto.

(** The tokens [Series.replace] turns into the null. *)
Definition es_centinela (s : string) : bool :=
  String.eqb s "None" || String.eqb s "nan" || String.eqb s "Nan".

Section TextNormalizer.

(** Python's [str] of a finite number. *)
Variable str_fin : Qc -> string.

(** [Series.astype(str)] on one cell. *)
Definition astype_str (c : cell) : string :=
  match c with
  | CStr s => s
  | CNum NaN => "nan"
  | CNum PInf => "inf"
  | CNum NInf => "-inf"
  | CNum (Fin q) => str_fin q
  end.

(** One cell through the three assignments of the loop body. *)
Definition normalizar_celda (c : cell) : Text :=
  let s := strip (astype_str c) in
  let t := if es_centinela s then None else Some s in
  remover_tildes t.

(** [normalizar_texto(df, ["producto", "vendedor", "sucursal"])], as [main]
    calls it. *)
Definition normalizar_texto (df : DataFrame CsvRow)
    : DataFrame RawRow * Eventos :=
  (map (fun p =>
          (fst p,
           mkRawRow (csv_fecha (snd p))
                    (normalizar_celda (csv_producto (snd p)))
                    (normalizar_celda (csv_vendedor (snd p)))
                    (normalizar_celda (csv_sucursal (snd p)))
                    (csv_cantidad (snd p))
                    (csv_precio_unitario (snd p)))) df,
   [(INFO, EvNormalizacion)]).

End TextNormalizer.

(** A text of ASCII characters only. *)
Fixpoint texto_ascii (s : string) : bool :=
  match s with
  | EmptyString => true
  | String c s' => es_ascii c && texto_ascii s'
  end.

Definition celda_ascii (t : Text) : bool :=
  match t with None => true | Some s => texto_ascii s end.

(** ** CategoryStandardizer: [estandarizar_categorias] *)

Definition es_mayuscula (c : ascii) : bool :=
  Nat.leb 65 (nat_of_ascii c) && Nat.leb (nat_of_ascii c) 90.

Definition es_minuscula (c : ascii) : bool :=
  Nat.leb 97 (nat_of_ascii c) && Nat.leb (nat_of_ascii c) 122.

Definition es_letra (c : ascii) : bool := es_mayuscula c || es_minuscula c.

Definition mayuscula (c : ascii) : ascii :=
  if es_minuscula c then ascii_of_nat (nat_of_ascii c - 32) else c.

Definition minuscula (c : ascii) : ascii :=
  if es_mayuscula c then ascii_of_nat (nat_of_ascii c + 32) else c.

(** [str.title()] on ASCII text, which is what [normalizar_texto] leaves: a
    letter after a letter goes to lower case, any other letter to upper
    case. *)
Fixpoint title_desde (previa : bool) (s : string) : string :=
  match s with
  | EmptyString => EmptyString
  | String c s' =>
      String (if previa then minuscula c else mayuscula c)
             (title_desde (es_letra c) s')
  end.

Definition title (s : string) : string := title_desde false s.

(** [Series.str.title()] on one cell: the null stays. *)
Definition str_title (t : Text) : Text := option_map title t.

Definition estandarizar_fila (r : Row) : Row :=
  mkRow (fecha r) (str_title (producto r)) (str_title (vendedor r))
        (str_title (sucursal r)) (cantidad r) (precio_unitario r).

Definition estandarizar_categorias (df : DataFrame Row)
    : DataFrame Row * Eventos :=
  (map (fun p => (fst p, estandarizar_fila (snd p))) df,
   [(INFO, EvEstandarizacion)]).

(** The three text cells of a row hold ASCII text. *)
Definition fila_ascii (r : Row) : bool :=
  celda_ascii (producto r) && celda_ascii (vendedor r)
  && celda_ascii (sucursal r).

(** ** Persister: [guardar_procesado] *)

Definition nombre_procesado (fecha_hoy : string) : string :=
  ("ventas_limpias_" ++ fecha_hoy ++ ".csv")%string.

(** [fecha_hoy] is [datetime.today().strftime('%d-%m-%Y')]; the record
    logged is the value returned. *)
Definition guardar_procesado (fecha_hoy : string) (df : DataFrame Row)
    (ruta_processed : string) : M Eventos :=
  makedirs ruta_processed ;;;
  let nombre := nombre_procesado fecha_hoy in
  let destino := os_path_join ruta_processed nombre in
  to_csv df destino ModeW true ;;;
  ret [(INFO, EvGuardado destino)].

(** Does a text hold a "v" followed by an "e"? *)
Fixpoint tiene_ve (t : string) : bool :=
  match t with
  | EmptyString => false
  | String c t' =>
      (Ascii.eqb c "v"%char
       && match t' with
          | String d _ => Ascii.eqb d "e"%char
          | EmptyString => false
          end)
      || tiene_ve t'
  end.

(** ** A sale of the run date *)

(** Half past ten, in nanoseconds after midnight. *)
Definition diez_y_media : Z := 37800000000000.

(** Two loaves sold on the run date at half past ten. *)
Definition fila_tarde : Row :=
  mkRow (Some (hoy_ej + diez_y_media)%Z) (Some "Pan") (Some "Ana")
        (Some "Centro") (Num.of_Z 2) (Num.of_Z 10).

Definition df_tarde_ej : DataFrame Row := [(0, fila_tarde)].

(** ** The amounts as binary64 numbers *)

(** The ventas_totales column of [resumen_diario_por_sucursal] over the key
    and the amount of each row, for any way [suma] of adding up a column. *)
Definition ventas_por_clave {V} (suma : list V -> V) (l : list (Clave * V))
    : list (Clave * V) :=
  map (fun g => (fst g, suma (map snd (snd g))))
      (groupby clave_eqb clave_leb fst l).







(** [str] of a finite number, for the samples. *)
Definition str_fin_ej (q : Qc) : string := "0".
(** ** Cells: equality and comparisons *)

Lemma Qeq_bool_Qc (a b : Qc) : Qeq_bool a b = true <-> a = b.
Proof.
  rewrite Qeq_bool_iff. split.
  - apply Qc_is_canon.
  - intros ->. reflexivity.
Qed.

Lemma num_eqb_eq (x y : num) : num_eqb x y = true <-> x = y.
Proof.
  destruct x, y; simpl; try (split; [discriminate | congruence]);
    try (split; reflexivity).
  rewrite Qeq_bool_Qc. split; congruence.
Qed.

Lemma opt_eqb_eq {A} (eqb : A -> A -> bool) :
  (forall a b, eqb a b = true <-> a = b) ->
  forall x y, opt_eqb eqb x y = true <-> x = y.
Proof.
  intros H [a|] [b|]; simpl; try (split; [discriminate | congruence]);
    try (split; reflexivity).
  rewrite H. split; congruence.
Qed.

Lemma text_eqb_eq (x y : Text) : text_eqb x y = true <-> x = y.
Proof. apply opt_eqb_eq, String.eqb_eq. Qed.

Lemma row_eqb_eq (a b : Row) : row_eqb a b = true <-> a = b.
Proof.
  unfold row_eqb. rewrite !andb_true_iff.
  rewrite (opt_eqb_eq Z.eqb Z.eqb_eq), !text_eqb_eq, !num_eqb_eq.
  destruct a, b; simpl. split.
  - intros [[[[[-> ->] ->] ->] ->] ->]. reflexivity.
  - intros [= -> -> -> -> -> ->]. repeat split.
Qed.

Lemma row_eqb_refl (a : Row) : row_eqb a a = true.
Proof. apply row_eqb_eq. reflexivity. Qed.

Lemma le0_spec (x : num) : Num.le0 x = true <-> NoPositivo x.
Proof.
  unfold NoPositivo. destruct x as [| |q|]; simpl.
  - split; [discriminate | intros [H | (q & H & _)]; discriminate].
  - split; auto.
  - unfold Num.sgn. split.
    + intros H. right. exists q. split; [reflexivity |].
      apply Qcle_alt. destruct (Qccompare q _); congruence.
    + intros [H | (q' & [= <-] & H)]; [discriminate |].
      apply Qcle_alt in H. destruct (Qccompare q _) eqn:E; try reflexivity.
      exfalso. apply H. exact E.
  - split; [discriminate | intros [H | (q & H & _)]; discriminate].
Qed.

Lemma isna_spec (x : num) : Num.isna x = true <-> x = NaN.
Proof. destruct x; simpl; split; congruence. Qed.

Lemma mask_rechazo_spec (hoy : Timestamp) (r : Row) :
  mask_rechazo hoy r = true <-> ViolaRegla hoy r.
Proof.
  unfold mask_rechazo, ViolaRegla, mask_futuras, mask_precio_invalido,
    mask_cantidad_invalida, mask_fecha_invalida, FechaFutura, PrecioInvalido,
    CantidadInvalida, FechaNula.
  rewrite !orb_true_iff, !le0_spec, !isna_spec.
  destruct (fecha r) as [t|]; simpl.
  - rewrite Z.ltb_lt. split.
    + intros [[[H | H] | H] | H]; eauto; discriminate.
    + intros [(t' & [= <-] & H) | [H | [H | H]]]; auto; discriminate.
  - split; auto.
Qed.

Lemma mask_rechazo_false (hoy : Timestamp) (r : Row) :
  mask_rechazo hoy r = false <-> ~ ViolaRegla hoy r.
Proof.
  rewrite <- mask_rechazo_spec. destruct (mask_rechazo hoy r); split; congruence.
Qed.

(** ** Data frames: labels, masks and drops *)

Lemma NoDup_index_inj {A} (df : DataFrame A) (p q : nat * A) :
  NoDup (index df) -> In p df -> In q df -> fst p = fst q -> p = q.
Proof.
  unfold index. induction df as [|a df IH]; simpl; [tauto |].
  intros Hnd [-> | Hp] [-> | Hq] Heq; inversion Hnd as [|? ? Hnot Hnd']; subst.
  - reflexivity.
  - exfalso. apply Hnot. rewrite Heq. apply in_map, Hq.
  - exfalso. apply Hnot. rewrite <- Heq. apply in_map, Hp.
  - apply IH; assumption.
Qed.

(** With distinct labels, dropping the labels of the masked rows keeps
    exactly the rows the mask leaves out. *)
Lemma drop_loc_mask {A} (m : A -> bool) (df : DataFrame A) :
  NoDup (index df) ->
  drop (index (loc_mask m df)) df = List.filter (fun p => negb (m (snd p))) df.
Proof.
  intros Hnd. unfold drop. apply filter_ext_in. intros p Hp. f_equal.
  destruct (m (snd p)) eqn:E.
  - apply existsb_exists. exists (fst p). split; [| apply Nat.eqb_refl].
    unfold index, loc_mask. apply in_map, filter_In. auto.
  - destruct (existsb _ _) eqn:X; [| reflexivity].
    apply existsb_exists in X as (i & Hi & Heq).
    apply Nat.eqb_eq in Heq. unfold index, loc_mask in Hi.
    apply in_map_iff in Hi as (q & <- & Hq).
    apply filter_In in Hq as [Hq Hm].
    assert (p = q) by (apply (NoDup_index_inj df); assumption).
    subst q. congruence.
Qed.

Lemma drop_nil {A} (df : DataFrame A) : drop [] df = df.
Proof.
  unfold drop. induction df as [|p df IH]; simpl; [reflexivity |].
  f_equal. exact IH.
Qed.

Lemma filter_split_perm {A} (f : A -> bool) (l : list A) :
  Permutation (List.filter (fun x => negb (f x)) l ++ List.filter f l) l.
Proof.
  induction l as [|a l IH]; simpl; [constructor |].
  destruct (f a); simpl.
  - symmetry. apply Permutation_cons_app. symmetry. exact IH.
  - constructor. exact IH.
Qed.

Lemma filter_none {A} (f : A -> bool) (l : list A) :
  Forall (fun x => f x = false) l -> List.filter f l = [].
Proof.
  induction 1 as [|a l Ha _ IH]; simpl; [reflexivity |].
  rewrite Ha. exact IH.
Qed.

Lemma filter_all {A} (f : A -> bool) (l : list A) :
  Forall (fun x => f x = true) l -> List.filter f l = l.
Proof.
  induction 1 as [|a l Ha _ IH]; simpl; [reflexivity |].
  rewrite Ha, IH. reflexivity.
Qed.

Lemma nodupb_NoDup (l : list nat) : nodupb l = true -> NoDup l.
Proof.
  induction l as [|x l IH]; simpl; [constructor |].
  intros H. apply andb_true_iff in H as [Hx Hl]. constructor; [| auto].
  intros Hin. apply negb_true_iff in Hx.
  assert (existsb (Nat.eqb x) l = true); [| congruence].
  apply existsb_exists. exists x. split; [assumption | apply Nat.eqb_refl].
Defined.

Lemma reset_index_index {A} (l : list A) :
  index (reset_index l) = seq 0 (length l).
Proof.
  unfold index, reset_index. generalize 0.
  induction l as [|a l IH]; intros n; simpl; [reflexivity |].
  f_equal. apply IH.
Qed.

Lemma reset_index_rows {A} (l : list A) : rows (reset_index l) = l.
Proof.
  unfold rows, reset_index. generalize 0.
  induction l as [|a l IH]; intros n; simpl; [reflexivity |].
  f_equal. apply IH.
Qed.

Lemma reset_index_NoDup {A} (l : list A) : NoDup (index (reset_index l)).
Proof. rewrite reset_index_index. apply seq_NoDup. Qed.

(** ** RuleValidator: value and effect *)

Lemma validar_fst hoy df ruta w :
  fst (validar_reglas_negocio hoy df ruta w) = df_valido hoy df.
Proof.
  unfold validar_reglas_negocio, bind, ret, logging.
  destruct (empty (rechazados hoy df)); reflexivity.
Qed.

Lemma empty_true {A} (df : DataFrame A) : empty df = true <-> df = [].
Proof. destruct df; simpl; split; congruence. Qed.

Lemma data_rows_app (a b : list csv_line) :
  data_rows (a ++ b) = data_rows a ++ data_rows b.
Proof. unfold data_rows. apply flat_map_app. Qed.

Lemma data_rows_lines (l : list Row) : data_rows (map Line l) = l.
Proof.
  induction l as [|r l IH]; simpl; [reflexivity |]. f_equal. exact IH.
Qed.

(** The run appends to the sink the rejected rows, in order, and nothing
    else but the header of a new file. *)
Lemma validar_sink hoy df ruta w :
  sink_rows ruta (snd (validar_reglas_negocio hoy df ruta w))
  = sink_rows ruta w ++ rows (rechazados hoy df).
Proof.
  unfold validar_reglas_negocio, bind, ret, logging, sink_rows.
  destruct (empty (rechazados hoy df)) eqn:E; simpl.
  - apply empty_true in E. rewrite E. simpl. rewrite app_nil_r. reflexivity.
  - rewrite lookup_insert_eq. simpl.
    destruct (files w !! ruta) as [c|] eqn:F; simpl.
    + rewrite data_rows_app, data_rows_lines. reflexivity.
    + destruct (bool_decide _); simpl; rewrite ?data_rows_lines; reflexivity.
Qed.


Lemma veces_loc_mask (m : Row -> bool) (r : Row) (df : DataFrame Row) :
  veces r (rows (loc_mask m df)) = if m r then veces r (rows df) else 0.
Proof.
  unfold veces, rows, loc_mask.
  induction df as [|[i a] df IH]; simpl; [destruct (m r); reflexivity |].
  destruct (row_eqb r a) eqn:E.
  - apply row_eqb_eq in E. subst a. destruct (m r) eqn:Hm; simpl.
    + rewrite row_eqb_refl. simpl. f_equal. rewrite IH. reflexivity.
    + exact IH.
  - destruct (m a); simpl; rewrite ?E; exact IH.
Qed.

Lemma filter_sublist {A} (f : A -> bool) (l : list A) :
  sublist (List.filter f l) l.
Proof.
  induction l as [|a l IH]; simpl; [constructor |].
  destruct (f a); constructor; exact IH.
Qed.

(** ** RuleValidator: partition, classification and the sink *)

(** C1 — For every dataset given to [validar_reglas_negocio] (its index
    labels pairwise distinct, as for every frame of the pipeline), the rows
    it returns and the rows it diverts to the sink split the input: the sink
    receives exactly the rejected rows, valid and rejected rows together are
    a rearrangement of the input, every input row is in exactly one of the
    two, and the two row counts add up to the row count of the input. *)
Theorem validar_particion (hoy : Timestamp) (df : DataFrame Row)
    (ruta : string) (w : World) :
  NoDup (index df) ->
  let validos := fst (validar_reglas_negocio hoy df ruta w) in
  let rech := rechazados hoy df in
  sink_rows ruta (snd (validar_reglas_negocio hoy df ruta w))
    = sink_rows ruta w ++ rows rech
  /\ Permutation (validos ++ rech) df
  /\ (forall p, In p df ->
        (In p validos /\ ~ In p rech) \/ (In p rech /\ ~ In p validos))
  /\ length validos + length rech = length df.
Proof.
  intros Hnd. cbv zeta. rewrite validar_fst. unfold df_valido, rechazados.
  rewrite (drop_loc_mask _ _ Hnd). unfold loc_mask.
  split; [apply validar_sink |].
  split; [apply filter_split_perm |].
  split.
  - intros p Hp. rewrite !filter_In.
    destruct (mask_rechazo hoy (snd p)) eqn:E; simpl.
    + right. split; [auto |]. intros [_ H]. discriminate.
    + left. split; [auto |]. intros [_ H]. discriminate.
  - rewrite <- length_app. apply Permutation_length, filter_split_perm.
Qed.

Lemma validar_particion_witness :
  NoDup (index df_ej)
  /\ length (fst (validar_reglas_negocio hoy_ej df_ej ruta_rechazos_default
                    mundo_ej))
     + length (rechazados hoy_ej df_ej) = length df_ej.
Proof.
  assert (H : NoDup (index df_ej)) by (apply nodupb_NoDup; reflexivity).
  split; [exact H |].
  exact (proj2 (proj2 (proj2
    (validar_particion hoy_ej df_ej ruta_rechazos_default mundo_ej H)))).
Defined.

(** X15 — [validar_reglas_negocio] compares instants: whatever the run date,
    a row is rejected exactly when its fecha is an instant after the midnight
    that starts the run date, its precio_unitario is <= 0 or null, its
    cantidad is <= 0 or null, or its fecha is null; the frame returned holds
    the other rows, in their original relative order. *)
Theorem validar_clasificacion (hoy : Timestamp) (df : DataFrame Row)
    (ruta : string) (w : World) :
  NoDup (index df) ->
  let validos := fst (validar_reglas_negocio hoy df ruta w) in
  (forall p, In p (rechazados hoy df) <-> In p df /\ ViolaRegla hoy (snd p))
  /\ (forall p, In p validos <-> In p df /\ ~ ViolaRegla hoy (snd p))
  /\ validos = List.filter (fun p => negb (mask_rechazo hoy (snd p))) df
  /\ sublist validos df.
Proof.
  intros Hnd. cbv zeta. rewrite validar_fst. unfold df_valido, rechazados.
  rewrite (drop_loc_mask _ _ Hnd). unfold loc_mask.
  split; [| split; [| split]].
  - intros p. rewrite filter_In, mask_rechazo_spec. reflexivity.
  - intros p. rewrite filter_In, negb_true_iff, mask_rechazo_false.
    reflexivity.
  - reflexivity.
  - apply filter_sublist.
Qed.

Lemma validar_clasificacion_witness :
  NoDup (index df_ej)
  /\ fst (validar_reglas_negocio hoy_ej df_ej ruta_rechazos_default mundo_ej)
     = List.filter (fun p => negb (mask_rechazo hoy_ej (snd p))) df_ej.
Proof.
  assert (H : NoDup (index df_ej)) by (apply nodupb_NoDup; reflexivity).
  split; [exact H |].
  exact (proj1 (proj2 (proj2
    (validar_clasificacion hoy_ej df_ej ruta_rechazos_default mundo_ej H)))).
Defined.

(** C2 — A sale of the run date at half past ten, with every field valid:
    its calendar date is the run date, not a later one, and no other rule
    holds of it, yet [validar_reglas_negocio] rejects it and returns no valid
    row.  The run date is cut to its midnight
    ([datetime.today().date()]) and the fecha of the row is not. *)
Lemma validar_hoy_con_hora :
  dt_date (fecha fila_tarde) = dt_date (Some hoy_ej)
  /\ ~ PrecioInvalido fila_tarde
  /\ ~ CantidadInvalida fila_tarde
  /\ ~ FechaNula fila_tarde
  /\ rechazados hoy_ej df_tarde_ej = df_tarde_ej
  /\ fst (validar_reglas_negocio hoy_ej df_tarde_ej ruta_rechazos_default
            mundo_ej) = [].
Proof.
  split; [reflexivity |].
  split.
  { unfold PrecioInvalido. rewrite <- le0_spec, <- isna_spec.
    intros [H | H]; vm_compute in H; discriminate H. }
  split.
  { unfold CantidadInvalida. rewrite <- le0_spec, <- isna_spec.
    intros [H | H]; vm_compute in H; discriminate H. }
  split; [unfold FechaNula; simpl; discriminate |].
  split; [reflexivity |].
  rewrite validar_fst. reflexivity.
Qed.




(** C10 — In one run of [validar_reglas_negocio] the sink grows by the
    rejected rows only, each input row at most once however many rules it
    violates: the appended rows are a subsequence of the input, and a row
    value occurs among them as often as in the input when it is rejected and
    not at all otherwise. *)
Theorem validar_sin_repeticion (hoy : Timestamp) (df : DataFrame Row)
    (ruta : string) (w : World) (r : Row) :
  sink_rows ruta (snd (validar_reglas_negocio hoy df ruta w))
    = sink_rows ruta w ++ rows (rechazados hoy df)
  /\ sublist (rechazados hoy df) df
  /\ veces r (rows (rechazados hoy df))
     = (if mask_rechazo hoy r then veces r (rows df) else 0)
  /\ veces r (rows (rechazados hoy df)) <= veces r (rows df).
Proof.
  split; [apply validar_sink |].
  split; [apply filter_sublist |].
  assert (E : veces r (rows (rechazados hoy df))
              = (if mask_rechazo hoy r then veces r (rows df) else 0))
    by apply veces_loc_mask.
  split; [exact E |].
  rewrite E. destruct (mask_rechazo hoy r); lia.
Qed.

(** ** Deduplicator *)

Lemma Distinct_filter {A} (eqb : A -> A -> bool) (f : A -> bool) (l : list A) :
  Distinct eqb l -> Distinct eqb (List.filter f l).
Proof.
  unfold Distinct. induction 1 as [|a l Ha _ IH]; simpl; [constructor |].
  destruct (f a); [| exact IH].
  constructor; [| exact IH].
  apply Forall_forall. intros x Hx. apply filter_In in Hx as [Hx _].
  revert x Hx. apply Forall_forall. exact Ha.
Qed.

Lemma unique_Distinct {A} (eqb : A -> A -> bool) (l : list A) :
  Distinct eqb (unique eqb l).
Proof.
  induction l as [|a l IH]; simpl; [constructor |].
  constructor.
  - apply Forall_forall. intros x Hx. apply filter_In in Hx as [_ Hx].
    apply negb_true_iff. exact Hx.
  - apply Distinct_filter. exact IH.
Qed.

Lemma Distinct_unique {A} (eqb : A -> A -> bool) (l : list A) :
  Distinct eqb l -> unique eqb l = l.
Proof.
  unfold Distinct. induction 1 as [|a l Ha _ IH]; simpl; [reflexivity |].
  rewrite IH. f_equal. apply filter_all.
  eapply Forall_impl; [| exact Ha]. intros x Hx. simpl in Hx.
  rewrite Hx. reflexivity.
Qed.

Lemma filter_idem {A} (f : A -> bool) (l : list A) :
  List.filter f (List.filter f l) = List.filter f l.
Proof.
  apply filter_all, Forall_forall. intros x Hx.
  apply filter_In in Hx. tauto.
Qed.

Lemma nulos_criticos_0 (r : Row) :
  nulos_criticos r = 0 <-> CriticosPresentes r.
Proof.
  unfold nulos_criticos, CriticosPresentes.
  destruct (fecha r), (producto r), (cantidad r), (precio_unitario r);
    simpl; split; try lia; try (intros ?; repeat split; congruence);
    intros (? & ? & ? & ?); congruence.
Qed.

Lemma contar_nulos_dropna (df : DataFrame Row) :
  contar_nulos (dropna_criticos df) = 0.
Proof.
  unfold contar_nulos, dropna_criticos, rows.
  induction df as [|p df IH]; simpl; [reflexivity |].
  destruct (Nat.eqb (nulos_criticos (snd p)) 0) eqn:E; [| exact IH].
  simpl. apply Nat.eqb_eq in E. rewrite E, IH. reflexivity.
Qed.

Lemma limpiar_fst (df : DataFrame Row) (w : World) :
  fst (limpiar_duplicados_y_nulos df w)
  = dropna_criticos (drop_duplicates df).
Proof.
  unfold limpiar_duplicados_y_nulos, bind, ret.
  destruct (Nat.ltb 0 _); simpl;
    destruct (Nat.ltb _ _); reflexivity.
Qed.

(** A frame without duplicates and without critical nulls passes the
    Deduplicator unchanged and unlogged. *)
Lemma limpiar_limpio (df : DataFrame Row) (w : World) :
  Distinct (fun p q => row_eqb (snd p) (snd q)) df ->
  Forall (fun p => nulos_criticos (snd p) = 0) df ->
  limpiar_duplicados_y_nulos df w = (df, w).
Proof.
  intros Hd Hn. unfold limpiar_duplicados_y_nulos, bind, ret, drop_duplicates.
  rewrite (Distinct_unique _ _ Hd), Nat.sub_diag. simpl.
  assert (E : dropna_criticos df = df).
  { apply filter_all. eapply Forall_impl; [| exact Hn].
    intros p Hp. simpl in Hp. apply Nat.eqb_eq. exact Hp. }
  assert (Z : contar_nulos df = 0)
    by (rewrite <- E; apply contar_nulos_dropna).
  rewrite E, Z. reflexivity.
Qed.

(** The pipeline keeps index labels distinct up to the RuleValidator. *)
Lemma filter_index_NoDup {A} (f : nat * A -> bool) (df : DataFrame A) :
  NoDup (index df) -> NoDup (index (List.filter f df)).
Proof.
  unfold index. induction df as [|p df IH]; simpl; [auto |].
  intros H. inversion H as [|? ? Hnot Hnd]; subst.
  destruct (f p); simpl; [| auto].
  constructor; [| auto]. intros Hin. apply Hnot.
  apply in_map_iff in Hin as (q & Hq & Hin). rewrite <- Hq.
  apply in_map. apply filter_In in Hin. tauto.
Qed.

Lemma unique_index_NoDup {A} (eqb : nat * A -> nat * A -> bool)
    (df : DataFrame A) :
  NoDup (index df) -> NoDup (index (unique eqb df)).
Proof.
  unfold index. induction df as [|p df IH]; simpl; [auto |].
  intros H. inversion H as [|? ? Hnot Hnd]; subst.
  constructor.
  - intros Hin. apply Hnot.
    apply in_map_iff in Hin as (q & Hq & Hin). rewrite <- Hq.
    apply in_map. apply filter_In in Hin as [Hin _].
    clear - Hin. induction df as [|a df IH]; simpl in *; [tauto |].
    destruct Hin as [-> | Hin]; [auto |].
    apply filter_In in Hin as [Hin _]. auto.
  - apply (filter_index_NoDup _ (unique eqb df)). auto.
Qed.

Lemma limpiar_index_NoDup (df : DataFrame Row) (w : World) :
  NoDup (index df) -> NoDup (index (fst (limpiar_duplicados_y_nulos df w))).
Proof.
  intros H. rewrite limpiar_fst. unfold dropna_criticos, drop_duplicates.
  apply filter_index_NoDup, unique_index_NoDup, H.
Qed.

Corollary pipeline_index_NoDup (l : list Row) (w : World) :
  NoDup (index (fst (limpiar_duplicados_y_nulos (reset_index l) w))).
Proof. apply limpiar_index_NoDup, reset_index_NoDup. Qed.

(** Labels matter to [drop]: were a label shared by a valid and a rejected
    row, both would go. *)
Example drop_etiqueta_repetida :
  df_valido hoy_ej df_etiqueta_repetida_ej = []
  /\ rows (rechazados hoy_ej df_etiqueta_repetida_ej) = [fila_leche].
Proof. split; reflexivity. Qed.

(** C7 — [limpiar_duplicados_y_nulos] is idempotent: a second application
    returns the dataset of the first (and logs nothing more), because after
    one application no two rows are equal in all columns and no row has a
    null in fecha, producto, cantidad or precio_unitario. *)
Theorem limpiar_idempotente (df : DataFrame Row) (w : World) :
  let una := limpiar_duplicados_y_nulos df w in
  let dos := limpiar_duplicados_y_nulos (fst una) (snd una) in
  fst dos = fst una
  /\ snd dos = snd una
  /\ ForallOrdPairs (fun p q => snd p <> snd q) (fst una)
  /\ Forall (fun p => CriticosPresentes (snd p)) (fst una).
Proof.
  cbv zeta.
  assert (Hd : Distinct (fun p q => row_eqb (snd p) (snd q))
                 (fst (limpiar_duplicados_y_nulos df w))).
  { rewrite limpiar_fst. apply Distinct_filter, unique_Distinct. }
  assert (Hn : Forall (fun p => nulos_criticos (snd p) = 0)
                 (fst (limpiar_duplicados_y_nulos df w))).
  { rewrite limpiar_fst. apply Forall_forall. intros p Hp.
    apply filter_In in Hp as [_ Hp]. apply Nat.eqb_eq. exact Hp. }
  rewrite (limpiar_limpio _ _ Hd Hn). simpl.
  split; [reflexivity |]. split; [reflexivity |]. split.
  - unfold Distinct in Hd. clear Hn.
    induction Hd as [|p l Hp _ IH]; constructor; [| exact IH].
    eapply Forall_impl; [| exact Hp]. intros q Hq E. simpl in Hq.
    apply row_eqb_eq in E. congruence.
  - eapply Forall_impl; [| exact Hn]. intros p. apply nulos_criticos_0.
Qed.

(** ** TypeCoercer *)

Lemma convert_coerce {A} (parse : cell -> option A) (null : A)
    (col : list cell) :
  convert parse null ErrCoerce col = Some (map (coerce parse null) col).
Proof.
  induction col as [|c col IH]; simpl; [reflexivity |].
  unfold coerce at 1. rewrite IH. destruct (parse c); reflexivity.
Qed.

(** Under [errors="raise"], by contrast, one bad value fails the column. *)
Lemma convert_raise_fails {A} (parse : cell -> option A) (null : A)
    (col : list cell) (c : cell) :
  In c col -> parse c = None -> convert parse null ErrRaise col = None.
Proof.
  induction col as [|a col IH]; simpl; [tauto |].
  intros [-> | Hin] Hc.
  - rewrite Hc. reflexivity.
  - rewrite (IH Hin Hc). destruct (parse a); reflexivity.
Qed.

Lemma assign_map (pd : cell -> option (option Timestamp))
    (pn : cell -> option num) (df : DataFrame RawRow) :
  assign df (map (coerce pd None) (map raw_fecha (rows df)))
            (map (coerce pn NaN) (map raw_cantidad (rows df)))
            (map (coerce pn NaN) (map raw_precio_unitario (rows df)))
  = map (tipificar_fila pd pn) df.
Proof.
  unfold rows. induction df as [|[i r] df IH]; simpl; [reflexivity |].
  rewrite IH. reflexivity.
Qed.

Lemma tipificar_campos_eq {formato : Type}
    (inferir : list cell -> formato)
    (pd : formato -> cell -> option (option Timestamp))
    (lanza : list cell -> bool) (pn : cell -> option num)
    (df : DataFrame RawRow) (w : World) :
  tipificar_campos inferir pd lanza pn df w
  = if lanza (map raw_fecha (rows df)) then None
    else Some (map (tipificar_fila
                      (pd (inferir (map raw_fecha (rows df)))) pn) df,
               mkWorld (files w) (dirs w)
                 (log w ++ [(INFO, MsgTipificacion)])).
Proof.
  unfold tipificar_campos, to_datetime, to_numeric.
  destruct (lanza _); [reflexivity |].
  rewrite !convert_coerce, assign_map. reflexivity.
Qed.




(** On the sample frame the two text cells of numeric columns and the text
    date become null; under [errors="raise"] the same column would fail. *)
Example tipificar_ej :
  tipificar_campos inferir_formato_ej parse_datetime_ej lanza_datetime_ej
    parse_numeric_ej df_raw_ej mundo_ej
  = Some ([(0, mkRow (Some 5%Z) (Some "Pan") None (Some "Centro")
                NaN (Num.of_Z 10));
           (1, mkRow None (Some "Leche") None None (Num.of_Z 1) NaN)],
          mkWorld ∅ ∅ [(INFO, MsgTipificacion)])
  /\ to_numeric parse_numeric_ej (map raw_cantidad (rows df_raw_ej)) ErrRaise
     = None.
Proof. split; reflexivity. Qed.

(** ** Sorting *)

Section Sorting.

Context {A : Type} (leb : A -> A -> bool).
Hypothesis leb_total : forall a b, leb a b = true \/ leb b a = true.
Hypothesis leb_trans :
  forall a b c, leb a b = true -> leb b c = true -> leb a c = true.

Lemma insert_sorted_perm (x : A) (l : list A) :
  Permutation (insert_sorted leb x l) (x :: l).
Proof.
  induction l as [|y l IH]; simpl; [reflexivity |].
  destruct (leb x y); [reflexivity |].
  rewrite IH. apply perm_swap.
Qed.

Lemma sort_perm (l : list A) : Permutation (sort leb l) l.
Proof.
  unfold sort. induction l as [|x l IH]; simpl; [reflexivity |].
  rewrite insert_sorted_perm. constructor. exact IH.
Qed.

Lemma insert_sorted_sorted (x : A) (l : list A) :
  StronglySorted (fun a b => leb a b = true) l ->
  StronglySorted (fun a b => leb a b = true) (insert_sorted leb x l).
Proof.
  induction 1 as [|y l Hs IH Hy]; simpl.
  - repeat constructor.
  - destruct (leb x y) eqn:E.
    + constructor; [constructor; assumption |].
      constructor; [exact E |].
      eapply Forall_impl; [| exact Hy]. intros z Hz. simpl in Hz.
      eapply leb_trans; eassumption.
    + constructor; [exact IH |].
      apply Forall_forall. intros z Hz.
      apply (Permutation_in _ (insert_sorted_perm x l)) in Hz.
      destruct Hz as [<- | Hz].
      * destruct (leb_total x y) as [H | H]; [congruence | exact H].
      * revert z Hz. apply Forall_forall. exact Hy.
Qed.

Lemma sort_sorted (l : list A) :
  StronglySorted (fun a b => leb a b = true) (sort leb l).
Proof.
  unfold sort. induction l as [|x l IH]; simpl; [constructor |].
  apply insert_sorted_sorted, IH.
Qed.

End Sorting.

Lemma StronglySorted_app_inv {A} (R : A -> A -> Prop) (l1 l2 : list A) :
  StronglySorted R (l1 ++ l2) ->
  StronglySorted R l1
  /\ forall a b, In a l1 -> In b l2 -> R a b.
Proof.
  induction l1 as [|x l1 IH]; simpl; intros H.
  - split; [constructor | tauto].
  - inversion H as [|? ? Hs Hx]; subst.
    destruct (IH Hs) as [H1 H2]. split.
    + constructor; [exact H1 |].
      apply Forall_forall. intros z Hz.
      rewrite Forall_forall in Hx. apply Hx, in_or_app. auto.
    + intros a b [<- | Ha] Hb.
      * rewrite Forall_forall in Hx. apply Hx, in_or_app. auto.
      * apply H2; assumption.
Qed.

(** ** Distinct values *)

Section Unique.

Context {A : Type} (eqb : A -> A -> bool).
Hypothesis eqb_eq : forall a b, eqb a b = true <-> a = b.

Lemma unique_In (x : A) (l : list A) : In x (unique eqb l) <-> In x l.
Proof.
  induction l as [|a l IH]; simpl; [tauto |].
  rewrite filter_In, IH, negb_true_iff. split.
  - tauto.
  - intros [-> | H]; [auto |].
    destruct (eqb a x) eqn:E; [apply eqb_eq in E; auto | auto].
Qed.

Lemma unique_NoDup (l : list A) : NoDup (unique eqb l).
Proof.
  induction l as [|a l IH]; simpl; constructor.
  - rewrite filter_In. intros [_ H].
    apply negb_true_iff in H.
    assert (eqb a a = true) by (apply eqb_eq; reflexivity). congruence.
  - apply NoDup_filter, IH.
Qed.

End Unique.

(** ** Arithmetic and order of cells *)

Lemma Qc_cmp_le (a b : Qc) :
  match (a ?= b)%Qc with Gt => false | _ => true end = true <-> (a <= b)%Qc.
Proof.
  rewrite Qcle_alt. destruct (a ?= b)%Qc; split; congruence.
Qed.

Lemma Qc_cmp_lt (a b : Qc) :
  match (a ?= b)%Qc with Lt => true | _ => false end = true <-> (a < b)%Qc.
Proof.
  rewrite Qclt_alt. destruct (a ?= b)%Qc; split; congruence.
Qed.

Lemma num_le_spec (x y : num) : Num.le x y = true <-> NumLe x y.
Proof.
  destruct x, y; simpl; try apply Qc_cmp_le;
    split; try discriminate; try tauto; auto.
Qed.

Lemma num_lt_spec (x y : num) : Num.lt x y = true <-> NumLt x y.
Proof.
  destruct x, y; simpl; try apply Qc_cmp_lt;
    split; try discriminate; try tauto; auto.
Qed.

Lemma asc_leb_spec (x y : num) : asc_leb x y = true <-> AscOrden x y.
Proof.
  unfold asc_leb, AscOrden.
  rewrite orb_true_iff, andb_true_iff, isna_spec, num_le_spec.
  split; [tauto |]. intros [H | H]; [auto |]. right. split; [| exact H].
  destruct x; simpl in *; tauto.
Qed.

Lemma desc_leb_spec (x y : num) : desc_leb x y = true <-> DescOrden x y.
Proof.
  unfold desc_leb, DescOrden.
  rewrite orb_true_iff, andb_true_iff, isna_spec, num_le_spec.
  split; [tauto |]. intros [H | H]; [auto |]. right. split; [| exact H].
  destruct x, y; simpl in *; tauto.
Qed.

Lemma NumLe_total (x y : num) : x <> NaN -> y <> NaN -> NumLe x y \/ NumLe y x.
Proof.
  destruct x as [| |a|], y as [| |b|]; simpl; try tauto.
  intros _ _. destruct (Qclt_le_dec a b) as [H | H]; [| auto].
  left. apply Qclt_le_weak, H.
Qed.

Lemma NumLe_trans (x y z : num) : NumLe x y -> NumLe y z -> NumLe x z.
Proof.
  destruct x, y, z; simpl; try tauto. apply Qcle_trans.
Qed.

Lemma NumLe_notna (x y : num) : NumLe x y -> x <> NaN /\ y <> NaN.
Proof. destruct x, y; simpl; try tauto; split; discriminate. Qed.

Lemma asc_leb_total (x y : num) : asc_leb x y = true \/ asc_leb y x = true.
Proof.
  rewrite !asc_leb_spec. unfold AscOrden.
  destruct x as [| |a|], y as [| |b|]; simpl;
    try (left; left; reflexivity); try (right; left; reflexivity);
    try (left; right; exact I); try (right; right; exact I).
  destruct (Qclt_le_dec a b) as [H | H]; [| auto].
  left. right. apply Qclt_le_weak, H.
Qed.

Lemma asc_leb_trans (x y z : num) :
  asc_leb x y = true -> asc_leb y z = true -> asc_leb x z = true.
Proof.
  rewrite !asc_leb_spec. unfold AscOrden.
  intros [-> | H1] [-> | H2]; auto.
  - destruct z; simpl in H2; tauto.
  - right. eapply NumLe_trans; eassumption.
Qed.

Lemma desc_leb_total (x y : num) : desc_leb x y = true \/ desc_leb y x = true.
Proof.
  rewrite !desc_leb_spec. unfold DescOrden.
  destruct x as [| |a|], y as [| |b|]; simpl;
    try (left; left; reflexivity); try (right; left; reflexivity);
    try (left; right; exact I); try (right; right; exact I).
  destruct (Qclt_le_dec a b) as [H | H]; [| auto].
  right. right. apply Qclt_le_weak, H.
Qed.

Lemma desc_leb_trans (x y z : num) :
  desc_leb x y = true -> desc_leb y z = true -> desc_leb x z = true.
Proof.
  rewrite !desc_leb_spec. unfold DescOrden.
  intros [-> | H1] [-> | H2]; auto.
  - destruct z; simpl in H2; tauto.
  - right. eapply NumLe_trans; eassumption.
Qed.

(** ** Grouping *)

Lemma filter_map_comm {A B} (f : B -> bool) (g : A -> B) (l : list A) :
  List.filter f (map g l) = map g (List.filter (fun x => f (g x)) l).
Proof.
  induction l as [|a l IH]; simpl; [reflexivity |].
  destruct (f (g a)); simpl; rewrite IH; reflexivity.
Qed.

Lemma filter_filter_impl {A} (g h : A -> bool) (l : list A) :
  (forall x, In x l -> g x = true -> h x = true) ->
  List.filter g (List.filter h l) = List.filter g l.
Proof.
  induction l as [|a l IH]; simpl; intros H; [reflexivity |].
  destruct (h a) eqn:Eh; simpl.
  - destruct (g a); rewrite IH; auto.
  - destruct (g a) eqn:Eg.
    + rewrite (H a) in Eh; auto. discriminate.
    + apply IH. auto.
Qed.

Section Groupby.

Context {A K : Type} (keqb kleb : K -> K -> bool) (key : A -> K).
Hypothesis keqb_eq : forall a b, keqb a b = true <-> a = b.

Lemma groupby_keys (l : list A) :
  map fst (groupby keqb kleb key l) = sort kleb (unique keqb (map key l)).
Proof.
  unfold groupby. rewrite map_map. simpl. apply map_id.
Qed.

Lemma groupby_keys_perm (l : list A) :
  Permutation (map fst (groupby keqb kleb key l)) (unique keqb (map key l)).
Proof. rewrite groupby_keys. apply sort_perm. Qed.

Lemma groupby_keys_NoDup (l : list A) :
  NoDup (map fst (groupby keqb kleb key l)).
Proof.
  eapply Permutation_NoDup.
  - symmetry. apply groupby_keys_perm.
  - apply unique_NoDup, keqb_eq.
Qed.

Lemma groupby_keys_In (k : K) (l : list A) :
  In k (map fst (groupby keqb kleb key l)) <-> In k (map key l).
Proof.
  split; intros H.
  - apply (unique_In keqb keqb_eq).
    eapply Permutation_in; [apply groupby_keys_perm | exact H].
  - apply (unique_In keqb keqb_eq) in H.
    eapply Permutation_in; [symmetry; apply groupby_keys_perm | exact H].
Qed.

Lemma groupby_In (k : K) (g : list A) (l : list A) :
  In (k, g) (groupby keqb kleb key l) <->
  In k (map key l) /\ g = List.filter (fun r => keqb (key r) k) l.
Proof.
  rewrite <- groupby_keys_In. unfold groupby. rewrite map_map. simpl.
  rewrite map_id, in_map_iff. split.
  - intros (k' & [= <- <-] & Hk). auto.
  - intros [Hk ->]. eauto.
Qed.

Lemma groupby_length (l : list A) :
  length (groupby keqb kleb key l) = length (unique keqb (map key l)).
Proof.
  rewrite <- (length_map fst). apply Permutation_length, groupby_keys_perm.
Qed.


End Groupby.

Lemma clave_eqb_eq (a b : Clave) : clave_eqb a b = true <-> a = b.
Proof.
  unfold clave_eqb. rewrite andb_true_iff, (opt_eqb_eq Z.eqb Z.eqb_eq),
    text_eqb_eq.
  destruct a, b; simpl. split; [intros [-> ->] | intros [= -> ->]]; auto.
Qed.

(** ** Aggregator: the daily summary *)

Lemma crear_monto_rows (df : DataFrame Row) (w : World) :
  rows (fst (crear_monto_total df w)) = map crear_monto_fila (rows df).
Proof. unfold crear_monto_total, rows. simpl. rewrite !map_map. reflexivity. Qed.

Lemma resumen_rows (df : DataFrame RowM) (w : World) :
  rows (fst (resumen_diario_por_sucursal df w))
  = map fila_resumen (groupby clave_eqb clave_leb clave (rows df)).
Proof. unfold resumen_diario_por_sucursal. simpl. apply reset_index_rows. Qed.

Lemma Forall_filter_sub {A} (P : A -> Prop) (f : A -> bool) (l : list A) :
  Forall P l -> Forall P (List.filter f l).
Proof.
  rewrite !Forall_forall. intros H x Hx. apply filter_In in Hx. apply H. tauto.
Qed.

(** The ventas_totales column, next to its keys, is [ventas_por_clave] at the
    sum of the model. *)
Lemma resumen_ventas_por_clave (df : DataFrame RowM) (w : World) :
  map (fun s => ((g_fecha s, g_sucursal s), ventas_totales s))
      (rows (fst (resumen_diario_por_sucursal df w)))
  = ventas_por_clave Num.sum
      (map (fun r => (clave r, monto_total r)) (rows df)).
Proof.
  rewrite resumen_rows. unfold ventas_por_clave, groupby.
  rewrite !map_map. simpl.
  apply map_ext. intros [f s]. simpl. f_equal. f_equal.
  rewrite (filter_map_comm (fun r : Clave * num => clave_eqb (fst r) (f, s))).
  rewrite map_map. reflexivity.
Qed.



(** ** Aggregator: ticket_promedio *)

Lemma of_nat_sgn (t : nat) :
  t <> 0 -> Num.sgn (Q2Qc (inject_Z (Z.of_nat t))) = Gt.
Proof.
  intros Ht. unfold Num.sgn. apply Qcgt_alt. unfold Qclt. simpl.
  rewrite !Qred_correct. change 0%Q with (inject_Z 0).
  rewrite <- Zlt_Qlt. lia.
Qed.

Lemma replace_inf_not_inf (x : num) : Num.isinf (replace_inf x) = false.
Proof. destruct x; reflexivity. Qed.

Lemma div_by_zero (x : num) : replace_inf (Num.div x (Num.of_nat 0)) = NaN.
Proof.
  destruct x as [| |a|]; try reflexivity.
  unfold Num.of_nat, Num.of_Z. simpl.
  change (Num.sgn (Q2Qc (inject_Z 0))) with Eq. simpl.
  destruct (Num.sgn a); reflexivity.
Qed.

Lemma div_by_count (x : num) (t : nat) :
  t <> 0 ->
  replace_inf (Num.div x (Num.of_nat t))
  = match x with
    | Fin q => Fin (q / Q2Qc (inject_Z (Z.of_nat t)))
    | _ => NaN
    end
  /\ (Num.isinf x = false ->
      replace_inf (Num.div x (Num.of_nat t)) = Num.div x (Num.of_nat t)).
Proof.
  intros Ht. unfold Num.of_nat, Num.of_Z.
  destruct x as [| |a|]; simpl; rewrite ?(of_nat_sgn t Ht); simpl;
    split; try reflexivity; discriminate.
Qed.

(** C5 (as the code has it) — In every row of the daily summary,
    ticket_promedio is null when tickets = 0; when tickets is not 0 and
    ventas_totales is finite it is ventas_totales divided by tickets; when
    ventas_totales is infinite it is null; it is never infinite.  The
    function is total, so it never raises. *)
Theorem ticket_promedio_resumen (df : DataFrame RowM) (w : World)
    (s : SummaryRow) :
  In s (rows (fst (resumen_diario_por_sucursal df w))) ->
  (tickets s = 0 -> ticket_promedio s = NaN)
  /\ (tickets s <> 0 -> forall q, ventas_totales s = Fin q ->
        ticket_promedio s
        = Num.div (ventas_totales s) (Num.of_nat (tickets s))
        /\ ticket_promedio s
           = Fin (q / Q2Qc (inject_Z (Z.of_nat (tickets s)))))
  /\ (Num.isinf (ventas_totales s) = true -> ticket_promedio s = NaN)
  /\ Num.isinf (ticket_promedio s) = false.
Proof.
  rewrite resumen_rows. intros Hin.
  apply in_map_iff in Hin as (g & <- & _). unfold fila_resumen. simpl.
  set (x := Num.sum (map monto_total (snd g))).
  set (t := count_notna (fun r => producto (base r)) (snd g)).
  split; [| split; [| split]].
  - intros ->. apply div_by_zero.
  - intros Ht q Hq. destruct (div_by_count x t Ht) as [E1 E2].
    rewrite Hq in *. split; [apply E2; reflexivity | exact E1].
  - intros Hinf. destruct (Nat.eq_dec t 0) as [-> | Ht].
    + apply div_by_zero.
    + destruct (div_by_count x t Ht) as [E1 _]. rewrite E1.
      destruct x; simpl in Hinf; try discriminate; reflexivity.
  - apply replace_inf_not_inf.
Qed.

Lemma ticket_promedio_resumen_witness :
  In resumen_pan_ej
     (rows (fst (resumen_diario_por_sucursal
                   (fst (crear_monto_total df_pan_ej mundo_ej)) mundo_ej)))
  /\ (forall q, ventas_totales resumen_pan_ej = Fin q ->
        ticket_promedio resumen_pan_ej
        = Num.div (ventas_totales resumen_pan_ej)
                  (Num.of_nat (tickets resumen_pan_ej))
        /\ ticket_promedio resumen_pan_ej
           = Fin (q / Q2Qc (inject_Z (Z.of_nat (tickets resumen_pan_ej))))).
Proof.
  assert (H : In resumen_pan_ej
                (rows (fst (resumen_diario_por_sucursal
                   (fst (crear_monto_total df_pan_ej mundo_ej)) mundo_ej))))
    by (left; reflexivity).
  split; [exact H |].
  apply (proj1 (proj2
    (ticket_promedio_resumen _ mundo_ej resumen_pan_ej H))).
  discriminate.
Defined.

(** C5, counterexample — a valid dataset whose one row has an infinite
    precio_unitario: its summary row has tickets = 1 and ventas_totales =
    +inf, and ticket_promedio is null, not the quotient +inf. *)
Lemma ticket_promedio_cociente_infinito :
  Forall (fun p => ~ ViolaRegla hoy_ej (snd p)) df_inf_ej
  /\ ~ (forall s,
          In s (rows (fst (resumen_diario_por_sucursal
                             (fst (crear_monto_total df_inf_ej mundo_ej))
                             mundo_ej))) ->
          tickets s <> 0 ->
          ticket_promedio s
          = Num.div (ventas_totales s) (Num.of_nat (tickets s))).
Proof.
  split.
  - repeat constructor. apply mask_rechazo_false. reflexivity.
  - intros H.
    specialize (H (fila_resumen
      (clave (crear_monto_fila fila_inf), [crear_monto_fila fila_inf]))).
    assert (E : NaN = PInf); [| discriminate E].
    apply H; [left; reflexivity | discriminate].
Qed.

(** ** Aggregator: the rankings *)

Section GroupbySum.

Variable col : RowM -> Text.

Lemma groupby_sum_keys (l : list RowM) :
  map fst (groupby_sum col l)
  = map fst (groupby text_eqb text_leb col
               (List.filter (fun r => negb (isna_opt (col r))) l)).
Proof. unfold groupby_sum. rewrite map_map. reflexivity. Qed.

Lemma groupby_sum_NoDup (l : list RowM) : NoDup (map fst (groupby_sum col l)).
Proof. rewrite groupby_sum_keys. apply groupby_keys_NoDup, text_eqb_eq. Qed.

Lemma notnull_key_In (k : Text) (l : list RowM) :
  In k (map col (List.filter (fun r => negb (isna_opt (col r))) l))
  <-> exists name, k = Some name /\ In k (map col l).
Proof.
  split.
  - intros H. apply in_map_iff in H as (r & <- & Hr).
    apply filter_In in Hr as [Hr Hn].
    destruct (col r) as [name|] eqn:E; [| discriminate].
    exists name. split; [reflexivity |]. rewrite <- E. apply in_map, Hr.
  - intros (name & -> & H). apply in_map_iff in H as (r & E & Hr).
    apply in_map_iff. exists r. split; [exact E |].
    apply filter_In. rewrite E. auto.
Qed.

Lemma groupby_sum_In (k : Text) (s : num) (l : list RowM) :
  In (k, s) (groupby_sum col l) <->
  (exists name, k = Some name /\ In k (map col l))
  /\ s = Num.sum (map monto_total
                    (List.filter (fun r => text_eqb (col r) k) l)).
Proof.
  unfold groupby_sum. rewrite in_map_iff, <- notnull_key_In. split.
  - intros ([k' g] & E & Hg). simpl in E. injection E as <- <-.
    apply (groupby_In _ _ _ text_eqb_eq) in Hg as [Hk ->]. simpl.
    split; [exact Hk |]. f_equal. f_equal.
    apply filter_filter_impl. intros r _ Hr.
    apply text_eqb_eq in Hr. rewrite Hr.
    apply notnull_key_In in Hk as (name & -> & _). reflexivity.
  - intros [Hk ->].
    exists (k, List.filter (fun r => text_eqb (col r) k)
                 (List.filter (fun r => negb (isna_opt (col r))) l)).
    split.
    + simpl. f_equal. f_equal. f_equal.
      apply filter_filter_impl. intros r _ Hr.
      apply text_eqb_eq in Hr. rewrite Hr.
      apply notnull_key_In in Hk as (name & -> & _). reflexivity.
    + apply (groupby_In _ _ _ text_eqb_eq). auto.
Qed.

Lemma groupby_sum_length (l : list RowM) :
  length (groupby_sum col l) = size (list_to_set (omap col l) : gset string).
Proof.
  unfold groupby_sum. rewrite length_map, groupby_length.
  set (S := list_to_set (omap col l) : gset string).
  change (size S) with (length (elements S)).
  rewrite <- (length_map (@Some string)).
  apply Permutation_length, NoDup_Permutation.
  - apply unique_NoDup, text_eqb_eq.
  - apply Finite.Injective_map_NoDup; [intros ? ?; congruence | apply NoDup_ListNoDup, NoDup_elements].
  - intros k. split; intros H.
    + apply (unique_In _ text_eqb_eq), notnull_key_In in H.
      destruct H as (name & -> & H). apply in_map_iff in H as (r & E & Hr).
      apply in_map. apply list_elem_of_In, elem_of_elements,
        elem_of_list_to_set, list_elem_of_omap.
      exists r. split; [apply list_elem_of_In, Hr | exact E].
    + apply in_map_iff in H as (name & <- & Hn).
      apply (unique_In _ text_eqb_eq), notnull_key_In.
      exists name. split; [reflexivity |].
      apply list_elem_of_In, elem_of_elements, elem_of_list_to_set,
        list_elem_of_omap in Hn.
      destruct Hn as (r & Hr & E). apply in_map_iff. exists r.
      split; [exact E | apply list_elem_of_In, Hr].
Qed.

End GroupbySum.

Lemma sort_values_perm (asc : bool) (s : list (Text * num)) :
  Permutation (sort_values asc s) s.
Proof. apply sort_perm. Qed.

Lemma StronglySorted_weaken {A} (R R' : A -> A -> Prop) (l : list A) :
  (forall a b, R a b -> R' a b) -> StronglySorted R l -> StronglySorted R' l.
Proof.
  intros H. induction 1 as [|a l _ IH Ha]; constructor; [exact IH |].
  eapply Forall_impl; [| exact Ha]. apply H.
Qed.

Lemma sort_values_sorted (asc : bool) (s : list (Text * num)) :
  StronglySorted
    (fun a b => (if asc then AscOrden else DescOrden) (snd a) (snd b))
    (sort_values asc s).
Proof.
  unfold sort_values.
  eapply StronglySorted_weaken; [| apply sort_sorted].
  - intros a b H. simpl in H.
    destruct asc; [apply asc_leb_spec | apply desc_leb_spec]; exact H.
  - intros a b. destruct asc; [apply asc_leb_total | apply desc_leb_total].
  - intros a b c. destruct asc; [apply asc_leb_trans | apply desc_leb_trans].
Qed.

Lemma head_In {A} (n : nat) (l : list A) (x : A) : In x (head n l) -> In x l.
Proof.
  unfold head. intros H. rewrite <- (firstn_skipn n l).
  apply in_or_app. auto.
Qed.

Lemma head_sorted {A} (R : A -> A -> Prop) (n : nat) (l : list A) :
  StronglySorted R l -> StronglySorted R (head n l).
Proof.
  unfold head. intros H. rewrite <- (firstn_skipn n l) in H.
  apply StronglySorted_app_inv in H. tauto.
Qed.

Lemma head_NoDup {A} (n : nat) (l : list A) : NoDup l -> NoDup (head n l).
Proof.
  unfold head. intros H. rewrite <- (firstn_skipn n l) in H.
  apply NoDup_app_remove_r in H. exact H.
Qed.

Lemma top_productos_rows (df : DataFrame RowM) (n : nat) (w : World) :
  rows (fst (top_productos df n w))
  = head n (sort_values false
              (groupby_sum (fun r => producto (base r)) (rows df))).
Proof. unfold top_productos. simpl. apply reset_index_rows. Qed.

Lemma fillna_vendedor_omap (l : list RowM) :
  omap (fun r => vendedor (base r)) (map fillna_vendedor l)
  = map nombre_vendedor l.
Proof.
  induction l as [|r l IH]; simpl; [reflexivity |].
  unfold nombre_vendedor at 1. rewrite <- IH.
  destruct (vendedor (base r)); reflexivity.
Qed.

Lemma fillna_vendedor_suma (name : string) (l : list RowM) :
  Num.sum (map monto_total
             (List.filter (fun r => text_eqb (vendedor (base r)) (Some name))
                (map fillna_vendedor l)))
  = Num.sum (map monto_total
               (List.filter (fun r => String.eqb (nombre_vendedor r) name) l)).
Proof.
  rewrite filter_map_comm, map_map. f_equal.
  rewrite (map_ext _ monto_total) by reflexivity. f_equal.
  apply filter_ext. intros r. unfold nombre_vendedor. simpl.
  destruct (vendedor (base r)); reflexivity.
Qed.

Lemma top_vendedores_rows (df : DataFrame RowM) (n : nat) (w : World) :
  rows (fst (top_vendedores df n w))
  = head n (sort_values true
              (groupby_sum (fun r => vendedor (base r))
                 (map fillna_vendedor (rows df)))).
Proof.
  unfold top_vendedores. simpl. rewrite reset_index_rows.
  unfold rows. rewrite !map_map. reflexivity.
Qed.

(** C4 (as the code has it) — For every dataset and every N,
    [top_productos] returns one entry per product with the sum of its
    monto_total, in non-increasing order of that sum (equal sums may follow
    one another; a null sum goes last), and as many entries as the smaller of
    N and the number of distinct products. *)
Theorem top_productos_ranking (df : DataFrame RowM) (n : nat) (w : World) :
  let g := rows (fst (top_productos df n w)) in
  length g = Nat.min n (size (productos df))
  /\ StronglySorted (fun a b => DescOrden (snd a) (snd b)) g
  /\ NoDup (map fst g)
  /\ (forall k s, In (k, s) g ->
        exists name, k = Some name /\ name ∈ productos df
          /\ s = suma_monto
                   (fun r => text_eqb (producto (base r)) (Some name)) df).
Proof.
  cbv zeta. rewrite top_productos_rows.
  set (col := fun r : RowM => producto (base r)).
  split; [| split; [| split]].
  - unfold head. rewrite length_firstn.
    rewrite (Permutation_length (sort_values_perm _ _)), groupby_sum_length.
    reflexivity.
  - apply head_sorted. apply (sort_values_sorted false).
  - unfold head. rewrite <- firstn_map. apply head_NoDup.
    eapply Permutation_NoDup; [| apply (groupby_sum_NoDup col (rows df))].
    symmetry. apply Permutation_map, sort_values_perm.
  - intros k s H. apply head_In in H.
    apply (Permutation_in _ (sort_values_perm _ _)) in H.
    apply groupby_sum_In in H as [(name & -> & Hk) ->].
    exists name. split; [reflexivity |]. split; [| reflexivity].
    apply in_map_iff in Hk as (r & E & Hr).
    apply elem_of_list_to_set, list_elem_of_omap.
    exists r. split; [apply list_elem_of_In, Hr | exact E].
Qed.

(** C4, counterexample — a valid dataset in which two products reach the
    same sum: the ranking lists both, so it is not strictly descending. *)
Lemma top_productos_empate :
  Forall (fun p => ~ ViolaRegla hoy_ej (snd p)) df_empate_ej
  /\ ~ StronglySorted (fun a b => NumLt (snd b) (snd a))
         (rows (fst (top_productos
                       (fst (crear_monto_total df_empate_ej mundo_ej))
                       5 mundo_ej))).
Proof.
  split.
  - repeat constructor; apply mask_rechazo_false; reflexivity.
  - intros H. vm_compute in H.
    inversion H as [|a l _ Ha]; subst.
    inversion Ha as [|b l' Hlt _]; subst.
    vm_compute in Hlt. discriminate Hlt.
Qed.

(** C3 — For every dataset and every N, [top_vendedores] counts the rows
    with a null vendedor under "Sin Vendedor", returns one entry per seller
    with the sum of the seller's monto_total, in ascending order of that sum,
    as many entries as the smaller of N and the number of sellers; every
    seller left out has a sum that may stand after each returned one, so the
    entries are the N lowest-revenue sellers. *)
Theorem top_vendedores_ranking (df : DataFrame RowM) (n : nat) (w : World) :
  let g := rows (fst (top_vendedores df n w)) in
  let suma name :=
    suma_monto (fun r => String.eqb (nombre_vendedor r) name) df in
  (forall k s, In (k, s) g ->
     exists name, k = Some name /\ name ∈ vendedores df /\ s = suma name)
  /\ NoDup (map fst g)
  /\ StronglySorted (fun a b => AscOrden (snd a) (snd b)) g
  /\ length g = Nat.min n (size (vendedores df))
  /\ (forall name, name ∈ vendedores df ->
        In (Some name, suma name) g
        \/ forall e, In e g -> AscOrden (snd e) (suma name)).
Proof.
  cbv zeta. rewrite top_vendedores_rows.
  set (col := fun r : RowM => vendedor (base r)).
  set (l2 := map fillna_vendedor (rows df)).
  assert (Hmem : forall name, name ∈ vendedores df <-> In (Some name) (map col l2)).
  { intros name. unfold vendedores.
    rewrite elem_of_list_to_set, <- fillna_vendedor_omap, list_elem_of_omap.
    fold l2. split.
    - intros (r & Hr & E). rewrite <- E.
      apply (in_map col), list_elem_of_In, Hr.
    - intros H. apply in_map_iff in H as (r & E & Hr).
      exists r. split; [apply list_elem_of_In, Hr | exact E]. }
  split; [| split; [| split; [| split]]].
  - intros k s H. apply head_In in H.
    apply (Permutation_in _ (sort_values_perm _ _)) in H.
    apply groupby_sum_In in H as [(name & -> & Hk) ->].
    exists name. split; [reflexivity |]. split; [apply Hmem, Hk |].
    apply fillna_vendedor_suma.
  - unfold head. rewrite <- firstn_map. apply head_NoDup.
    eapply Permutation_NoDup; [| apply (groupby_sum_NoDup col l2)].
    symmetry. apply Permutation_map, sort_values_perm.
  - apply head_sorted. apply (sort_values_sorted true).
  - unfold head. rewrite length_firstn.
    rewrite (Permutation_length (sort_values_perm _ _)), groupby_sum_length.
    unfold l2, col. rewrite fillna_vendedor_omap. reflexivity.
  - intros name Hname.
    assert (Hin : In (Some name,
                      suma_monto
                        (fun r => String.eqb (nombre_vendedor r) name) df)
                    (sort_values true (groupby_sum col l2))).
    { apply (Permutation_in _ (Permutation_sym (sort_values_perm _ _))).
      apply groupby_sum_In. split.
      - exists name. split; [reflexivity | apply Hmem, Hname].
      - symmetry. apply fillna_vendedor_suma. }
    pose proof (sort_values_sorted true (groupby_sum col l2)) as Hs.
    unfold head.
    rewrite <- (firstn_skipn n (sort_values true (groupby_sum col l2)))
      in Hin, Hs.
    apply in_app_or in Hin as [Hin | Hin]; [left; exact Hin | right].
    apply StronglySorted_app_inv in Hs as [_ Hs].
    intros e He. apply (Hs e _ He Hin).
Qed.

(** ** The scenario of the specification, end to end *)

(** Three raw rows, one an exact duplicate and one with cantidad = -1: the
    Deduplicator leaves two rows, the RuleValidator one valid row (Pan) and
    one rejected row (Leche), and the summary row of (2024-01-01, "Centro")
    has ventas_totales = 20, unidades = 2, tickets = 1, ticket_promedio = 20. *)
Example escenario :
  let d := fst (limpiar_duplicados_y_nulos df_crudo_ej mundo_ej) in
  let v := fst (validar_reglas_negocio hoy_ej d ruta_rechazos_default
                  mundo_ej) in
  let g := rows (fst (resumen_diario_por_sucursal
                        (fst (crear_monto_total v mundo_ej)) mundo_ej)) in
  d = df_ej
  /\ v = df_pan_ej
  /\ rows (rechazados hoy_ej d) = [fila_leche]
  /\ map (fun s => (g_fecha s, g_sucursal s, tickets s,
                    num_eqb (ventas_totales s) (Num.of_Z 20),
                    num_eqb (unidades s) (Num.of_Z 2),
                    num_eqb (ticket_promedio s) (Num.of_Z 20))) g
     = [(Some 19723%Z, Some "Centro", 1, true, true, true)].
Proof. repeat split; reflexivity. Qed.

(** ** Deduplicator: which rows stay *)

Lemma unique_sublist {A} (eqb : A -> A -> bool) (l : list A) :
  sublist (unique eqb l) l.
Proof.
  induction l as [|a l IH]; simpl; [constructor |].
  constructor. etransitivity; [apply filter_sublist | exact IH].
Qed.

Lemma veces_cons (r a : Row) (l : list Row) :
  veces r (a :: l) = (if row_eqb r a then 1 else 0) + veces r l.
Proof. unfold veces. simpl. destruct (row_eqb r a); reflexivity. Qed.

Lemma row_eqb_sym (a b : Row) : row_eqb a b = row_eqb b a.
Proof.
  destruct (row_eqb a b) eqn:E1, (row_eqb b a) eqn:E2; try reflexivity.
  - apply row_eqb_eq in E1. subst. rewrite row_eqb_refl in E2. discriminate.
  - apply row_eqb_eq in E2. subst. rewrite row_eqb_refl in E1. discriminate.
Qed.

Lemma veces_filter_otros (r a : Row) (df : DataFrame Row) :
  veces r (rows (List.filter (fun q => negb (row_eqb a (snd q))) df))
  = if row_eqb r a then 0 else veces r (rows df).
Proof.
  unfold rows. induction df as [|[i b] df IH]; simpl.
  - destruct (row_eqb r a); reflexivity.
  - destruct (row_eqb a b) eqn:Eab; simpl.
    + rewrite IH, veces_cons. apply row_eqb_eq in Eab. subst b.
      destruct (row_eqb r a); reflexivity.
    + rewrite !veces_cons, IH. destruct (row_eqb r a) eqn:Era; [| reflexivity].
      apply row_eqb_eq in Era. subst r. rewrite Eab. reflexivity.
Qed.

(** X8 — [drop_duplicates] keeps, of the rows equal in all columns, the first
    one with its label: every row of the result stands in the input after rows
    that all differ from it, and each row value of the input occurs exactly
    once in the result. *)
Theorem drop_duplicates_primera (df : DataFrame Row) :
  (forall i r, In (i, r) (drop_duplicates df) ->
     exists l1 l2, df = l1 ++ (i, r) :: l2 /\ ~ In r (rows l1))
  /\ (forall r, veces r (rows (drop_duplicates df))
                = if Nat.eqb (veces r (rows df)) 0 then 0 else 1).
Proof.
  unfold drop_duplicates. split.
  - induction df as [|[j a] df IH]; simpl; [tauto |].
    intros i r [[= <- <-] | H].
    + exists [], df. split; [reflexivity | simpl; tauto].
    + apply filter_In in H as [H Hne]. simpl in Hne.
      apply negb_true_iff in Hne.
      destruct (IH i r H) as (l1 & l2 & -> & Hnot).
      exists ((j, a) :: l1), l2. split; [reflexivity |].
      simpl. intros [-> | Hin]; [| tauto].
      rewrite row_eqb_refl in Hne. discriminate.
  - intros r. induction df as [|[j a] df IH]; simpl; [reflexivity |].
    rewrite !veces_cons.
    rewrite (veces_filter_otros r a (unique _ df)).
    destruct (row_eqb r a); simpl; [reflexivity |]. exact IH.
Qed.

Lemma dropna_filas_le_celdas (df : DataFrame Row) :
  length df - length (dropna_criticos df) <= contar_nulos df.
Proof.
  unfold dropna_criticos, contar_nulos, rows.
  induction df as [|p df IH]; simpl; [lia |].
  pose proof (filter_length_le (fun p => Nat.eqb (nulos_criticos (snd p)) 0) df).
  destruct (Nat.eqb (nulos_criticos (snd p)) 0) eqn:E; simpl.
  - lia.
  - apply Nat.eqb_neq in E. lia.
Qed.

(** X9 — [limpiar_duplicados_y_nulos] only removes rows: its result is a
    subsequence of the input; it leaves files and directories alone; it warns
    of duplicates exactly when some were dropped, and of nulls exactly when a
    critical cell was null, reporting the number of null cells, which is at
    least the number of rows dropped for them. *)
Theorem limpiar_registro (df : DataFrame Row) (w : World) :
  let res := limpiar_duplicados_y_nulos df w in
  let df1 := drop_duplicates df in
  let dup := length df - length df1 in
  let celdas := contar_nulos df1 in
  sublist (fst res) df
  /\ files (snd res) = files w
  /\ dirs (snd res) = dirs w
  /\ log (snd res)
     = log w
       ++ (if Nat.ltb 0 dup then [(WARNING, MsgDuplicados dup)] else [])
       ++ (if Nat.ltb 0 celdas then [(WARNING, MsgNulos celdas)] else [])
  /\ length df1 - length (fst res) <= celdas.
Proof.
  cbv zeta. rewrite limpiar_fst.
  split.
  { etransitivity; [apply filter_sublist | apply unique_sublist]. }
  unfold limpiar_duplicados_y_nulos, bind, ret, logging.
  rewrite contar_nulos_dropna, Nat.sub_0_r.
  destruct (Nat.ltb 0 (length df - length (drop_duplicates df)));
    destruct (Nat.ltb 0 (contar_nulos (drop_duplicates df))); simpl;
    rewrite <- ?app_assoc, ?app_nil_r;
    repeat split; try reflexivity; apply dropna_filas_le_celdas.
Qed.

(** ** RuleValidator: the sink over several runs *)

Lemma validar_archivo (hoy : Timestamp) (df : DataFrame Row) (ruta : string)
    (w : World) :
  rechazados hoy df <> [] ->
  (forall c, files w !! ruta = Some c ->
     files (snd (validar_reglas_negocio hoy df ruta w)) !! ruta
     = Some (c ++ lineas (rechazados hoy df)))
  /\ (files w !! ruta = None -> ruta ∉ dirs w -> dirname ruta <> ruta ->
      files (snd (validar_reglas_negocio hoy df ruta w)) !! ruta
      = Some (Header :: lineas (rechazados hoy df))).
Proof.
  intros Hne. unfold validar_reglas_negocio, bind, ret, logging, lineas.
  destruct (empty (rechazados hoy df)) eqn:E.
  { apply empty_true in E. contradiction. }
  simpl. rewrite lookup_insert_eq. split.
  - intros c Hc. rewrite Hc. simpl. reflexivity.
  - intros Hc Hd Hr. rewrite Hc. simpl.
    rewrite bool_decide_eq_false_2; [reflexivity |].
    rewrite elem_of_union, elem_of_singleton. intros [H | H]; auto.
Qed.

Lemma validar_sin_violaciones (hoy : Timestamp) (df : DataFrame Row)
    (ruta : string) (w : World) :
  rechazados hoy df = [] ->
  validar_reglas_negocio hoy df ruta w
  = (df, mkWorld (files w) (dirs w)
           (log w ++ [(INFO, MsgValidos (length df))])).
Proof.
  intros H. unfold validar_reglas_negocio, df_valido. rewrite H. simpl.
  rewrite drop_nil. reflexivity.
Qed.

(** X10 — Over two runs on a sink that did not exist, the header is written
    once, by the first run that rejects rows, and the second run appends its
    rejected rows after those of the first. *)
Theorem validar_dos_corridas (hoy1 hoy2 : Timestamp) (df1 df2 : DataFrame Row)
    (ruta : string) (w : World) :
  files w !! ruta = None -> ruta ∉ dirs w -> dirname ruta <> ruta ->
  rechazados hoy1 df1 <> [] ->
  let w1 := snd (validar_reglas_negocio hoy1 df1 ruta w) in
  let w2 := snd (validar_reglas_negocio hoy2 df2 ruta w1) in
  files w2 !! ruta
  = Some (Header :: lineas (rechazados hoy1 df1)
            ++ lineas (rechazados hoy2 df2)).
Proof.
  intros Hf Hd Hr H1. cbv zeta.
  pose proof (proj2 (validar_archivo hoy1 df1 ruta w H1) Hf Hd Hr) as E1.
  destruct (rechazados hoy2 df2) as [|p l] eqn:E2.
  - rewrite (validar_sin_violaciones _ _ _ _ E2). simpl.
    rewrite E1. unfold lineas at 2. simpl. rewrite app_nil_r. reflexivity.
  - assert (H2 : rechazados hoy2 df2 <> []) by (rewrite E2; discriminate).
    rewrite (proj1 (validar_archivo hoy2 df2 ruta _ H2) _ E1).
    rewrite E2. reflexivity.
Qed.

Lemma validar_dos_corridas_witness :
  files mundo_ej !! ruta_rechazos_default = None
  /\ files (snd (validar_reglas_negocio hoy_ej df_ej ruta_rechazos_default
                   (snd (validar_reglas_negocio hoy_ej df_ej
                           ruta_rechazos_default mundo_ej))))
       !! ruta_rechazos_default
     = Some (Header :: lineas (rechazados hoy_ej df_ej)
               ++ lineas (rechazados hoy_ej df_ej)).
Proof.
  split; [reflexivity |].
  apply (validar_dos_corridas hoy_ej hoy_ej df_ej df_ej ruta_rechazos_default
           mundo_ej).
  - reflexivity.
  - apply not_elem_of_empty.
  - discriminate.
  - discriminate.
Defined.

(** X11 — A run touches no file but the sink, removes no directory and only
    adds to the log. *)
Theorem validar_marco (hoy : Timestamp) (df : DataFrame Row) (ruta : string)
    (w : World) (p : string) :
  p <> ruta ->
  let w' := snd (validar_reglas_negocio hoy df ruta w) in
  files w' !! p = files w !! p
  /\ dirs w ⊆ dirs w'
  /\ exists l, log w' = log w ++ l.
Proof.
  intros Hp. cbv zeta. unfold validar_reglas_negocio, bind, ret, logging.
  destruct (empty (rechazados hoy df)); simpl.
  - split; [reflexivity |]. split; [reflexivity |]. eauto.
  - split; [apply lookup_insert_ne; congruence |].
    split; [apply union_subseteq_r |].
    rewrite <- app_assoc. eauto.
Qed.

Lemma validar_marco_witness :
  ("otro.csv" : string) <> ruta_rechazos_default
  /\ files (snd (validar_reglas_negocio hoy_ej df_ej ruta_rechazos_default
                   mundo_ej)) !! "otro.csv"
     = files mundo_ej !! "otro.csv".
Proof.
  assert (H : ("otro.csv" : string) <> ruta_rechazos_default) by discriminate.
  split; [exact H |].
  exact (proj1 (validar_marco hoy_ej df_ej ruta_rechazos_default mundo_ej
                  "otro.csv" H)).
Defined.

(** X12 — Validating again what a run returned rejects nothing: the frame
    comes back unchanged and files and directories stay as the first run left
    them. *)
Theorem validar_idempotente (hoy : Timestamp) (df : DataFrame Row)
    (ruta : string) (w : World) :
  NoDup (index df) ->
  let una := validar_reglas_negocio hoy df ruta w in
  validar_reglas_negocio hoy (fst una) ruta (snd una)
  = (fst una,
     mkWorld (files (snd una)) (dirs (snd una))
       (log (snd una) ++ [(INFO, MsgValidos (length (fst una)))])).
Proof.
  intros Hnd. cbv zeta. apply validar_sin_violaciones.
  rewrite validar_fst. unfold df_valido, rechazados at 2.
  rewrite (drop_loc_mask _ _ Hnd). unfold rechazados, loc_mask.
  apply filter_none, Forall_forall. intros p Hp.
  apply filter_In in Hp as [_ Hp]. apply negb_true_iff in Hp. exact Hp.
Qed.

Lemma validar_idempotente_witness :
  NoDup (index df_ej)
  /\ fst (validar_reglas_negocio hoy_ej
            (fst (validar_reglas_negocio hoy_ej df_ej ruta_rechazos_default
                    mundo_ej))
            ruta_rechazos_default
            (snd (validar_reglas_negocio hoy_ej df_ej ruta_rechazos_default
                    mundo_ej)))
     = fst (validar_reglas_negocio hoy_ej df_ej ruta_rechazos_default mundo_ej).
Proof.
  assert (H : NoDup (index df_ej)) by (apply nodupb_NoDup; reflexivity).
  split; [exact H |].
  exact (f_equal fst
    (validar_idempotente hoy_ej df_ej ruta_rechazos_default mundo_ej H)).
Defined.

(** ** Aggregator: amounts, tickets and complete rankings *)

Lemma le0_false_Positivo (x : num) :
  Num.le0 x = false -> Num.isna x = false -> Positivo x.
Proof.
  destruct x as [| |q|]; simpl; try discriminate.
  - intros H _. right. exists q. split; [reflexivity |].
    unfold Num.sgn in H. apply Qcgt_alt.
    destruct (Qccompare q _); congruence.
  - intros _ _. left. reflexivity.
Qed.

Lemma Positivo_mul (x y : num) : Positivo x -> Positivo y -> Positivo (Num.mul x y).
Proof.
  intros [-> | (a & -> & Ha)] [-> | (b & -> & Hb)]; simpl.
  - left. reflexivity.
  - left. unfold Num.sgn. apply Qcgt_alt in Hb. rewrite Hb. reflexivity.
  - left. unfold Num.sgn. apply Qcgt_alt in Ha. rewrite Ha. reflexivity.
  - right. exists (a * b)%Qc. split; [reflexivity |].
    rewrite <- (Qcmult_0_l b). apply Qcmult_lt_compat_r; assumption.
Qed.

(** X18 — [crear_monto_total] keeps labels and rows and adds one column: the
    amount of a row is null whenever its cantidad or its precio_unitario is,
    and it is never null on a row that passes the business rules. *)
Theorem crear_monto_total_no_nulo (hoy : Timestamp) (df : DataFrame Row)
    (w : World) :
  let v := fst (crear_monto_total df w) in
  index v = index df
  /\ map base (rows v) = rows df
  /\ Forall (fun r =>
               Num.isna (cantidad (base r))
               || Num.isna (precio_unitario (base r)) = true ->
               monto_total r = NaN) (rows v)
  /\ Forall (fun r => ~ ViolaRegla hoy (base r) -> monto_total r <> NaN)
       (rows v).
Proof.
  cbv zeta. unfold crear_monto_total, index, rows. simpl.
  rewrite !map_map. simpl. split; [reflexivity |].
  split; [reflexivity |].
  split; apply Forall_map, Forall_forall; intros p _; simpl.
  - destruct (cantidad (snd p)), (precio_unitario (snd p)); simpl;
      intros H; try reflexivity; discriminate H.
  - intros Hp. apply mask_rechazo_false in Hp. unfold mask_rechazo in Hp.
    rewrite !orb_false_iff in Hp. destruct Hp as [[[_ Hpr] Hc] _].
    unfold mask_precio_invalido, mask_cantidad_invalida in Hpr, Hc.
    rewrite orb_false_iff in Hpr, Hc.
    assert (H : Positivo (Num.mul (cantidad (snd p))
                            (precio_unitario (snd p))))
      by (apply Positivo_mul; apply le0_false_Positivo; tauto).
    destruct H as [H | (q & H & _)]; rewrite H; discriminate.
Qed.

Section GroupCount.

Context {A K : Type} (keqb : K -> K -> bool) (key : A -> K).
Hypothesis keqb_eq : forall a b, keqb a b = true <-> a = b.

(** Counting group by group is counting the whole list. *)
Lemma list_sum_groups (f : A -> nat) (ks : list K) (l : list A) :
  NoDup ks ->
  (forall r, In r l -> In (key r) ks) ->
  list_sum (map (fun k =>
              list_sum (map f (List.filter (fun r => keqb (key r) k) l))) ks)
  = list_sum (map f l).
Proof.
  intros Hnd. revert l. induction Hnd as [|k ks Hk Hnd IH]; intros l Hl.
  - destruct l as [|r l]; [reflexivity |]. destruct (Hl r). left. reflexivity.
  - simpl.
    set (l' := List.filter (fun r => negb (keqb (key r) k)) l).
    assert (E : map (fun k0 =>
                  list_sum (map f (List.filter (fun r => keqb (key r) k0) l))) ks
              = map (fun k0 =>
                  list_sum (map f (List.filter (fun r => keqb (key r) k0) l'))) ks).
    { apply map_ext_in. intros k0 Hk0. f_equal. f_equal. symmetry.
      apply filter_filter_impl. intros r _ Hr.
      apply keqb_eq in Hr. apply negb_true_iff.
      destruct (keqb (key r) k) eqn:X; [| reflexivity].
      apply keqb_eq in X. congruence. }
    rewrite E, IH.
    + rewrite <- list_sum_app, <- map_app.
      apply Permutation_list_sum, Permutation_map.
      rewrite Permutation_app_comm. apply filter_split_perm.
    + intros r Hr. apply filter_In in Hr as [Hr Hne].
      destruct (Hl r Hr) as [Heq | H]; [| exact H].
      apply negb_true_iff in Hne.
      assert (keqb (key r) k = true) by (apply keqb_eq; auto).
      congruence.
Qed.

End GroupCount.

Lemma count_notna_sum {A B} (col : A -> option B) (l : list A) :
  count_notna col l
  = list_sum (map (fun r => if isna_opt (col r) then 0 else 1) l).
Proof.
  unfold count_notna. induction l as [|a l IH]; simpl; [reflexivity |].
  destruct (isna_opt (col a)); simpl; rewrite IH; reflexivity.
Qed.

(** X19 — The tickets of the daily summary add up to the number of rows with a
    producto; when every row has one, as after the Deduplicator, every summary
    row has at least one ticket, so no ticket_promedio divides by zero, and
    the tickets add up to the number of rows. *)
Theorem resumen_tickets (df : DataFrame RowM) (w : World) :
  let g := rows (fst (resumen_diario_por_sucursal df w)) in
  list_sum (map tickets g)
  = count_notna (fun r => producto (base r)) (rows df)
  /\ (Forall (fun r => producto (base r) <> None) (rows df) ->
      Forall (fun s => 1 <= tickets s) g
      /\ list_sum (map tickets g) = length df).
Proof.
  cbv zeta. rewrite resumen_rows.
  set (l := rows df).
  set (col := fun r : RowM => producto (base r)).
  assert (E : list_sum (map tickets
                (map fila_resumen (groupby clave_eqb clave_leb clave l)))
              = count_notna col l).
  { rewrite count_notna_sum.
    rewrite <- (list_sum_groups clave_eqb clave clave_eqb_eq _
                  (map fst (groupby clave_eqb clave_leb clave l)) l).
    - unfold groupby. rewrite !map_map. simpl. f_equal.
      apply map_ext. intros k. apply count_notna_sum.
    - apply groupby_keys_NoDup, clave_eqb_eq.
    - intros r Hr. apply (groupby_keys_In _ _ _ clave_eqb_eq), in_map, Hr. }
  split; [exact E |].
  intros Hp.
  assert (Hall : forall l0, Forall (fun r => col r <> None) l0 ->
                 count_notna col l0 = length l0).
  { intros l0 H0. unfold count_notna. f_equal. apply filter_all.
    eapply Forall_impl; [| exact H0]. intros r Hr. simpl in Hr.
    unfold col in *. destruct (producto (base r)); [reflexivity | congruence]. }
  split.
  - apply Forall_map, Forall_forall. intros [k grp] Hg.
    apply (groupby_In _ _ _ clave_eqb_eq) in Hg as [Hk ->].
    unfold fila_resumen. simpl. fold col.
    rewrite Hall by (apply Forall_filter_sub, Hp).
    apply in_map_iff in Hk as (r & <- & Hr).
    assert (Hin : In r (List.filter (fun r0 => clave_eqb (clave r0) (clave r)) l)).
    { apply filter_In. split; [exact Hr |]. apply clave_eqb_eq. reflexivity. }
    destruct (List.filter _ l); [destruct Hin | simpl; lia].
  - rewrite E, (Hall l Hp). unfold l, rows. apply length_map.
Qed.

Lemma resumen_tickets_witness :
  Forall (fun r => producto (base r) <> None)
    (rows (fst (crear_monto_total df_empate_ej mundo_ej)))
  /\ list_sum (map tickets
                 (rows (fst (resumen_diario_por_sucursal
                               (fst (crear_monto_total df_empate_ej mundo_ej))
                               mundo_ej))))
     = length (fst (crear_monto_total df_empate_ej mundo_ej)).
Proof.
  assert (H : Forall (fun r => producto (base r) <> None)
                (rows (fst (crear_monto_total df_empate_ej mundo_ej))))
    by (repeat constructor; discriminate).
  split; [exact H |].
  exact (proj2 (proj2 (resumen_tickets _ mundo_ej) H)).
Defined.

(** X20 — With N at least the number of distinct products, [top_productos]
    ranks every product of the frame; with N = 0 it returns nothing. *)
Theorem top_productos_completo (df : DataFrame RowM) (n : nat) (w : World) :
  (size (productos df) <= n ->
   forall name, name ∈ productos df ->
     In (Some name,
         suma_monto (fun r => text_eqb (producto (base r)) (Some name)) df)
        (rows (fst (top_productos df n w))))
  /\ (n = 0 -> fst (top_productos df n w) = []).
Proof.
  split.
  - intros Hn name Hname. rewrite top_productos_rows. unfold head.
    rewrite firstn_all2.
    + apply (Permutation_in _ (Permutation_sym (sort_values_perm _ _))).
      apply groupby_sum_In. split; [| reflexivity].
      exists name. split; [reflexivity |].
      apply elem_of_list_to_set, list_elem_of_omap in Hname.
      destruct Hname as (r & Hr & E). apply in_map_iff.
      exists r. split; [exact E | apply list_elem_of_In, Hr].
    + rewrite (Permutation_length (sort_values_perm _ _)), groupby_sum_length.
      exact Hn.
  - intros ->. reflexivity.
Qed.

(** ** Ingestor *)

Section IngestorFacts.

Variable read_csv : string -> option (list CsvRow).
Variable ruta_raw : string.


Lemma leer_bucle_spec (archivos : list string) :
  leer_bucle read_csv ruta_raw archivos
  = (omap (leer_ruta read_csv ruta_raw) archivos,
     map (fun f => match leer_ruta read_csv ruta_raw f with
                   | Some _ => (INFO, EvArchivoCargado f)
                   | None => (ERROR, EvErrorLectura f)
                   end) archivos).
Proof.
  induction archivos as [|f l IH]; simpl; [reflexivity |].
  rewrite IH. unfold leer_ruta.
  destruct (read_csv (os_path_join ruta_raw f)); reflexivity.
Qed.

Lemma leer_archivos_csv_fst (listdir : list string) :
  fst (leer_archivos_csv read_csv ruta_raw listdir)
  = reset_index
      (concat (omap (leer_ruta read_csv ruta_raw)
                 (List.filter (fun f => endswith f ".csv") listdir))).
Proof.
  unfold leer_archivos_csv. rewrite leer_bucle_spec.
  destruct (omap (leer_ruta read_csv ruta_raw) _); reflexivity.
Qed.

(** X1 — The frame [leer_archivos_csv] returns holds the rows of the readable
    files whose name ends in ".csv", file after file in listing order, under
    the labels 0, 1, 2, ...: labels are pairwise distinct. *)
Theorem leer_archivos_csv_filas (listdir : list string) :
  let df := fst (leer_archivos_csv read_csv ruta_raw listdir) in
  rows df
  = concat (omap (leer_ruta read_csv ruta_raw)
              (List.filter (fun f => endswith f ".csv") listdir))
  /\ index df = seq 0 (length df)
  /\ NoDup (index df).
Proof.
  cbv zeta. rewrite leer_archivos_csv_fst.
  split; [apply reset_index_rows |].
  split; [| apply reset_index_NoDup].
  rewrite reset_index_index. f_equal.
  rewrite <- (reset_index_rows (concat _)) at 1.
  unfold rows. rewrite length_map. reflexivity.
Qed.

(** X2 — One record is logged per file whose name ends in ".csv", in listing
    order: INFO when it was read, ERROR when reading raised; a WARNING follows
    exactly when no file was read, and then the frame is empty. *)
Theorem leer_archivos_csv_eventos (listdir : list string) :
  let archivos := List.filter (fun f => endswith f ".csv") listdir in
  let res := leer_archivos_csv read_csv ruta_raw listdir in
  snd res
  = map (fun f => match leer_ruta read_csv ruta_raw f with
                  | Some _ => (INFO, EvArchivoCargado f)
                  | None => (ERROR, EvErrorLectura f)
                  end) archivos
    ++ (if forallb (fun f => isna_opt (leer_ruta read_csv ruta_raw f)) archivos
        then [(WARNING, EvSinArchivos)] else [])
  /\ (In (WARNING, EvSinArchivos) (snd res) -> fst res = []).
Proof.
  cbv zeta. unfold leer_archivos_csv. rewrite leer_bucle_spec.
  set (archivos := List.filter (fun f => endswith f ".csv") listdir).
  assert (E : forallb (fun f => isna_opt (leer_ruta read_csv ruta_raw f))
                archivos
              = match omap (leer_ruta read_csv ruta_raw) archivos with
                | [] => true
                | _ => false
                end).
  { induction archivos as [|f l IH]; simpl; [reflexivity |].
    destruct (leer_ruta read_csv ruta_raw f); simpl; [reflexivity | exact IH]. }
  rewrite E.
  destruct (omap (leer_ruta read_csv ruta_raw) archivos) eqn:Eo; simpl.
  - split; [reflexivity | reflexivity].
  - rewrite app_nil_r. split; [reflexivity |].
    intros H. apply in_map_iff in H as (f & Hf & _).
    destruct (leer_ruta read_csv ruta_raw f); discriminate.
Qed.

(** X3 — A file whose name does not end in ".csv", or that cannot be read,
    does not change the frame, wherever it stands in the listing. *)
Theorem leer_archivos_csv_ignora (l1 l2 : list string) (f : string) :
  endswith f ".csv" = false \/ leer_ruta read_csv ruta_raw f = None ->
  fst (leer_archivos_csv read_csv ruta_raw (l1 ++ f :: l2))
  = fst (leer_archivos_csv read_csv ruta_raw (l1 ++ l2)).
Proof.
  intros H. rewrite !leer_archivos_csv_fst. f_equal. f_equal.
  rewrite !filter_app. simpl.
  destruct (endswith f ".csv") eqn:E; [| reflexivity].
  destruct H as [H | H]; [discriminate |].
  rewrite !omap_app. simpl. rewrite H. reflexivity.
Qed.

End IngestorFacts.

Lemma leer_archivos_csv_ignora_witness :
  (endswith "notas.txt" ".csv" = false
   \/ read_csv_ej (os_path_join "raw" "notas.txt") = None)
  /\ fst (leer_archivos_csv read_csv_ej "raw" (["a.csv"] ++ "notas.txt" :: ["b.csv"]))
     = fst (leer_archivos_csv read_csv_ej "raw" (["a.csv"] ++ ["b.csv"])).
Proof.
  assert (H : endswith "notas.txt" ".csv" = false
              \/ read_csv_ej (os_path_join "raw" "notas.txt") = None)
    by (left; reflexivity).
  split; [exact H |].
  exact (leer_archivos_csv_ignora read_csv_ej "raw" ["a.csv"] ["b.csv"]
           "notas.txt" H).
Defined.

Example sin_tildes_ej :
  sin_tildes (String (ascii_of_nat 233) "l " ++ String (ascii_of_nat 241) "and"
              ++ String (ascii_of_nat 250)
                   (String (ascii_of_nat 189) EmptyString))
  = "el nandu12".
Proof. reflexivity. Qed.

(** ** TextNormalizer *)

Lemma texto_ascii_app (a b : string) :
  texto_ascii (a ++ b)%string = texto_ascii a && texto_ascii b.
Proof.
  induction a as [|c a IH]; simpl; [reflexivity |].
  rewrite IH. apply andb_assoc.
Qed.

Lemma tabla_latin1_ascii (n : nat) :
  texto_ascii (nth n tabla_latin1 EmptyString) = true.
Proof.
  assert (H : forallb texto_ascii tabla_latin1 = true) by reflexivity.
  rewrite forallb_forall in H.
  destruct (Nat.lt_ge_cases n (length tabla_latin1)) as [Hn | Hn].
  - apply H, nth_In, Hn.
  - rewrite nth_overflow by exact Hn. reflexivity.
Qed.

Lemma sin_tildes_car_ascii (c : ascii) : texto_ascii (sin_tildes_car c) = true.
Proof.
  unfold sin_tildes_car. destruct (es_ascii c) eqn:E.
  - simpl. rewrite E. reflexivity.
  - apply tabla_latin1_ascii.
Qed.

Lemma sin_tildes_ascii (s : string) : texto_ascii (sin_tildes s) = true.
Proof.
  induction s as [|c s IH]; simpl; [reflexivity |].
  rewrite texto_ascii_app, sin_tildes_car_ascii, IH. reflexivity.
Qed.

Lemma sin_tildes_id (s : string) : texto_ascii s = true -> sin_tildes s = s.
Proof.
  induction s as [|c s IH]; simpl; [reflexivity |].
  intros H. apply andb_true_iff in H as [Hc Hs].
  unfold sin_tildes_car. rewrite Hc, (IH Hs). reflexivity.
Qed.

(** X4 — [remover_tildes] returns ASCII text only; it leaves ASCII text and
    the null as they are, so applying it twice is applying it once. *)
Theorem remover_tildes_ascii (t : Text) :
  celda_ascii (remover_tildes t) = true
  /\ (celda_ascii t = true -> remover_tildes t = t)
  /\ remover_tildes (remover_tildes t) = remover_tildes t
  /\ (remover_tildes t = None <-> t = None).
Proof.
  destruct t as [s|]; simpl.
  - split; [apply sin_tildes_ascii |].
    split; [intros H; f_equal; apply sin_tildes_id, H |].
    split; [f_equal; apply sin_tildes_id, sin_tildes_ascii |].
    split; discriminate.
  - repeat split; reflexivity.
Qed.

Section TextNormalizerFacts.

Variable str_fin : Qc -> string.

(** X5 — A cell comes out of the normalisation null exactly when its text,
    once stripped, is one of None, nan and Nan; the null, which prints as nan,
    stays null; any other cell comes out as ASCII text. *)
Theorem normalizar_celda_nulos (c : cell) :
  (normalizar_celda str_fin c = None
   <-> es_centinela (strip (astype_str str_fin c)) = true)
  /\ normalizar_celda str_fin (CNum NaN) = None
  /\ celda_ascii (normalizar_celda str_fin c) = true.
Proof.
  unfold normalizar_celda.
  split; [| split].
  - destruct (es_centinela _); simpl; split; congruence.
  - reflexivity.
  - destruct (es_centinela _); simpl; [reflexivity | apply sin_tildes_ascii].
Qed.

(** X6 — Normalising again a text that came out of the normalisation changes
    nothing, provided it has no outer white space left and is not one of the
    three tokens. *)
Theorem normalizar_celda_estable (c : cell) (s : string) :
  normalizar_celda str_fin c = Some s ->
  strip s = s ->
  es_centinela s = false ->
  normalizar_celda str_fin (CStr s) = Some s.
Proof.
  intros Hc Hs Hn.
  assert (Ha : texto_ascii s = true).
  { unfold normalizar_celda in Hc.
    destruct (es_centinela _); simpl in Hc; [discriminate |].
    injection Hc as <-. apply sin_tildes_ascii. }
  unfold normalizar_celda. simpl. rewrite Hs, Hn. simpl.
  f_equal. apply sin_tildes_id, Ha.
Qed.

Lemma normalizar_texto_index (df : DataFrame CsvRow) :
  index (fst (normalizar_texto str_fin df)) = index df.
Proof. unfold normalizar_texto, index. simpl. rewrite map_map. reflexivity. Qed.

End TextNormalizerFacts.

Lemma normalizar_celda_estable_witness :
  normalizar_celda (fun _ => EmptyString) (CStr " Pan ") = Some "Pan"
  /\ normalizar_celda (fun _ => EmptyString) (CStr "Pan") = Some "Pan".
Proof.
  assert (H : normalizar_celda (fun _ => EmptyString) (CStr " Pan ")
              = Some "Pan") by reflexivity.
  split; [exact H |].
  apply (normalizar_celda_estable (fun _ => EmptyString) (CStr " Pan ") "Pan" H);
    reflexivity.
Defined.

(** Without the proviso a second pass can change the text: the acute accent
    leaves a space in front, which the second pass strips, and a text that
    loses its tilde can become one of the tokens. *)
Example normalizar_celda_dos_pasadas :
  normalizar_celda (fun _ => EmptyString)
    (CStr (String (ascii_of_nat 180) "x")) = Some " x"
  /\ normalizar_celda (fun _ => EmptyString) (CStr " x") = Some "x"
  /\ normalizar_celda (fun _ => EmptyString)
       (CStr (String (ascii_of_nat 241) "an")) = Some "nan"
  /\ normalizar_celda (fun _ => EmptyString) (CStr "nan") = None.
Proof. repeat split; reflexivity. Qed.

(** ** CategoryStandardizer *)

Lemma letra_caso (c : ascii) :
  es_letra (mayuscula c) = es_letra c
  /\ es_letra (minuscula c) = es_letra c
  /\ mayuscula (mayuscula c) = mayuscula c
  /\ minuscula (minuscula c) = minuscula c
  /\ es_ascii (mayuscula c) = es_ascii c
  /\ es_ascii (minuscula c) = es_ascii c.
Proof.
  destruct c as [[] [] [] [] [] [] [] []]; repeat split; reflexivity.
Qed.

Lemma title_desde_idem (b : bool) (s : string) :
  title_desde b (title_desde b s) = title_desde b s.
Proof.
  revert b. induction s as [|c s IH]; intros b; simpl; [reflexivity |].
  destruct (letra_caso c) as (H1 & H2 & H3 & H4 & _).
  destruct b; rewrite ?H1, ?H2, ?H3, ?H4, IH; reflexivity.
Qed.

Lemma title_desde_ascii (b : bool) (s : string) :
  texto_ascii (title_desde b s) = texto_ascii s.
Proof.
  revert b. induction s as [|c s IH]; intros b; simpl; [reflexivity |].
  destruct (letra_caso c) as (_ & _ & _ & _ & H5 & H6).
  destruct b; rewrite ?H5, ?H6, IH; reflexivity.
Qed.

Lemma str_title_idem (t : Text) : str_title (str_title t) = str_title t.
Proof.
  destruct t as [s|]; simpl; [| reflexivity].
  f_equal. apply title_desde_idem.
Qed.

Lemma estandarizar_fila_idem (r : Row) :
  estandarizar_fila (estandarizar_fila r) = estandarizar_fila r.
Proof. unfold estandarizar_fila. simpl. rewrite !str_title_idem. reflexivity. Qed.

(** X13 — On a frame of ASCII text, [estandarizar_categorias] applied twice
    gives what it gives applied once, and its result is again ASCII text. *)
Theorem estandarizar_categorias_idempotente (df : DataFrame Row) :
  Forall (fun p => fila_ascii (snd p) = true) df ->
  let una := fst (estandarizar_categorias df) in
  fst (estandarizar_categorias una) = una
  /\ Forall (fun p => fila_ascii (snd p) = true) una.
Proof.
  intros H. cbv zeta. unfold estandarizar_categorias. simpl. split.
  - rewrite map_map. apply map_ext. intros p. simpl.
    rewrite estandarizar_fila_idem. reflexivity.
  - apply Forall_map. eapply Forall_impl; [| exact H].
    intros p Hp. simpl. unfold fila_ascii, estandarizar_fila in *. simpl.
    destruct (producto (snd p)), (vendedor (snd p)), (sucursal (snd p));
      simpl in *; unfold title; rewrite ?title_desde_ascii; exact Hp.
Qed.

Lemma estandarizar_categorias_idempotente_witness :
  Forall (fun p => fila_ascii (snd p) = true) df_ej
  /\ fst (estandarizar_categorias (fst (estandarizar_categorias df_ej)))
     = fst (estandarizar_categorias df_ej).
Proof.
  assert (H : Forall (fun p => fila_ascii (snd p) = true) df_ej)
    by (repeat constructor).
  split; [exact H |].
  exact (proj1 (estandarizar_categorias_idempotente df_ej H)).
Defined.

(** [estandarizar_categorias] keeps labels, row count, fecha, cantidad and
    precio_unitario, and nulls stay nulls: a row violates a business rule
    after it exactly when it did before, and critical fields that were
    present stay present. *)
Theorem estandarizar_categorias_conserva (hoy : Timestamp)
    (df : DataFrame Row) :
  let df' := fst (estandarizar_categorias df) in
  index df' = index df
  /\ Forall2 (fun p p' =>
                fecha (snd p') = fecha (snd p)
                /\ cantidad (snd p') = cantidad (snd p)
                /\ precio_unitario (snd p') = precio_unitario (snd p)
                /\ (ViolaRegla hoy (snd p') <-> ViolaRegla hoy (snd p))
                /\ (CriticosPresentes (snd p') <-> CriticosPresentes (snd p)))
       df df'.
Proof.
  cbv zeta. unfold estandarizar_categorias, index. simpl. split.
  - rewrite map_map. reflexivity.
  - induction df as [|p df IH]; simpl; constructor; [| exact IH].
    simpl. split; [reflexivity |]. split; [reflexivity |].
    split; [reflexivity |]. split; [reflexivity |].
    unfold CriticosPresentes. simpl.
    destruct (producto (snd p)); simpl; split;
      intros (H1 & H2 & H3 & H4); repeat split;
      try assumption; try discriminate; try congruence.
Qed.

(** ** Persister *)

Lemma tiene_ve_sufijo (x y : string) :
  tiene_ve y = true -> tiene_ve (x ++ y)%string = true.
Proof.
  intros H. induction x as [|c x IH]; simpl; [exact H |].
  rewrite IH. apply orb_true_r.
Qed.

Lemma destino_no_rechazos (fecha_hoy ruta_processed : string) :
  os_path_join ruta_processed (nombre_procesado fecha_hoy)
  <> ruta_rechazos_default.
Proof.
  intros H.
  assert (E : tiene_ve (os_path_join ruta_processed
                          (nombre_procesado fecha_hoy)) = true).
  { unfold os_path_join. simpl.
    destruct (_ || _).
    - apply tiene_ve_sufijo. reflexivity.
    - apply tiene_ve_sufijo, (tiene_ve_sufijo "/"). reflexivity. }
  rewrite H in E. discriminate E.
Qed.

Lemma guardar_procesado_eq (fecha_hoy : string) (df : DataFrame Row)
    (ruta_processed : string) (w : World) :
  guardar_procesado fecha_hoy df ruta_processed w
  = ([(INFO, EvGuardado (os_path_join ruta_processed
                           (nombre_procesado fecha_hoy)))],
     mkWorld (<[ os_path_join ruta_processed (nombre_procesado fecha_hoy)
                 := Header :: lineas df ]> (files w))
             ({[ ruta_processed ]} ∪ dirs w) (log w)).
Proof. reflexivity. Qed.

(** X16 — Saving twice on the same day leaves what the second save alone would
    leave: the last snapshot wins, and saving the same frame again changes
    nothing. *)
Theorem guardar_procesado_ultima (fecha_hoy : string)
    (df1 df2 : DataFrame Row) (ruta_processed : string) (w : World) :
  snd (guardar_procesado fecha_hoy df2 ruta_processed
         (snd (guardar_procesado fecha_hoy df1 ruta_processed w)))
  = snd (guardar_procesado fecha_hoy df2 ruta_processed w).
Proof.
  rewrite !guardar_procesado_eq. simpl. f_equal.
  - apply insert_insert_eq.
  - rewrite (assoc_L (∪)), union_idemp_L. reflexivity.
Qed.

(** X17 — Whatever the directory and the date, the snapshot is not the default
    rejects file: [guardar_procesado] leaves that file as it was. *)
Theorem guardar_procesado_no_toca_rechazos (fecha_hoy : string)
    (df : DataFrame Row) (ruta_processed : string) (w : World) :
  let w' := snd (guardar_procesado fecha_hoy df ruta_processed w) in
  files w' !! ruta_rechazos_default = files w !! ruta_rechazos_default
  /\ sink_rows ruta_rechazos_default w' = sink_rows ruta_rechazos_default w.
Proof.
  cbv zeta. rewrite guardar_procesado_eq. unfold sink_rows. simpl.
  rewrite lookup_insert_ne by apply destino_no_rechazos.
  split; reflexivity.
Qed.

(** ** From the Ingestor to the RuleValidator *)

Lemma sublist_map {A B} (f : A -> B) (l1 l2 : list A) :
  sublist l1 l2 -> sublist (map f l1) (map f l2).
Proof. induction 1; simpl; constructor; assumption. Qed.

(** X7 — Reading, text normalisation, type coercion and deduplication, one
    after the other: whatever the directory holds, when [tipificar_campos]
    returns, its frame carries the positions of the frame that was read as
    labels, and the frame that deduplication hands on carries pairwise
    distinct labels, each one such a position, in increasing order: no stage
    relabels a row. *)
Theorem ingesta_indices {formato : Type}
    (read_csv : string -> option (list CsvRow))
    (ruta_raw : string) (listdir : list string) (str_fin : Qc -> string)
    (inferir : list cell -> formato)
    (pd : formato -> cell -> option (option Timestamp))
    (lanza : list cell -> bool) (pn : cell -> option num)
    (w : World) (df2 : DataFrame Row) (w2 : World) :
  let df0 := fst (leer_archivos_csv read_csv ruta_raw listdir) in
  let df1 := fst (normalizar_texto str_fin df0) in
  tipificar_campos inferir pd lanza pn df1 w = Some (df2, w2) ->
  index df2 = seq 0 (length df0)
  /\ let df3 := fst (limpiar_duplicados_y_nulos df2 w2) in
     NoDup (index df3)
     /\ sublist (index df3) (seq 0 (length df0)).
Proof.
  cbv zeta.
  assert (E1 : index (fst (normalizar_texto str_fin
                        (fst (leer_archivos_csv read_csv ruta_raw listdir))))
               = seq 0 (length (fst (leer_archivos_csv read_csv ruta_raw
                                       listdir)))).
  { unfold index, normalizar_texto. simpl. rewrite !map_map. simpl.
    rewrite leer_archivos_csv_fst.
    change (map (fun x => fst x) ?l) with (index l).
    rewrite reset_index_index. f_equal.
    rewrite <- (reset_index_rows (concat _)) at 1.
    unfold rows. rewrite length_map. reflexivity. }
  revert E1.
  generalize (fst (normalizar_texto str_fin
                (fst (leer_archivos_csv read_csv ruta_raw listdir)))).
  intros df1 E1.
  rewrite tipificar_campos_eq.
  destruct (lanza _); [discriminate |]. intros [= <- <-].
  set (f := pd _).
  assert (E : index (map (tipificar_fila f pn) df1)
              = seq 0 (length (fst (leer_archivos_csv read_csv ruta_raw
                                      listdir)))).
  { rewrite <- E1. unfold index. rewrite map_map. reflexivity. }
  split; [exact E |].
  split.
  - apply limpiar_index_NoDup. rewrite E. apply seq_NoDup.
  - rewrite <- E. rewrite limpiar_fst. unfold index.
    apply sublist_map.
    etransitivity; [apply filter_sublist | apply unique_sublist].
Qed.

Lemma ingesta_indices_witness :
  exists df2 w2,
    tipificar_campos inferir_formato_ej parse_datetime_ej lanza_datetime_ej
      parse_numeric_ej
      (fst (normalizar_texto str_fin_ej
              (fst (leer_archivos_csv read_csv_ej "raw" ["a.csv"]))))
      mundo_ej
    = Some (df2, w2)
    /\ index df2 = [0; 1].
Proof.
  pose (df1 := fst (normalizar_texto str_fin_ej
                      (fst (leer_archivos_csv read_csv_ej "raw" ["a.csv"])))).
  pose (df2 := map (tipificar_fila (parse_datetime_ej tt) parse_numeric_ej)
                 df1).
  pose (w2 := mkWorld (files mundo_ej) (dirs mundo_ej)
                (log mundo_ej ++ [(INFO, MsgTipificacion)])).
  assert (H : tipificar_campos inferir_formato_ej parse_datetime_ej
                lanza_datetime_ej parse_numeric_ej df1 mundo_ej
              = Some (df2, w2)) by reflexivity.
  exists df2, w2. split; [exact H |].
  exact (proj1 (ingesta_indices read_csv_ej "raw" ["a.csv"] str_fin_ej
                  inferir_formato_ej parse_datetime_ej lanza_datetime_ej
                  parse_numeric_ej mundo_ej df2 w2 H)).
Defined.

(** ** From the RuleValidator to the Aggregator *)

(** X14 — What [main] hands to the Aggregator, the validated frame with its
    categories standardised, violates no business rule as the validator
    tests them: standardising the text after validation brings back no row
    that would be rejected. *)
Theorem validos_al_agregador (hoy : Timestamp) (df : DataFrame Row)
    (ruta : string) (w : World) :
  NoDup (index df) ->
  let validos := fst (validar_reglas_negocio hoy df ruta w) in
  let limpio := fst (estandarizar_categorias validos) in
  Forall (fun p => ~ ViolaRegla hoy (snd p)) limpio.
Proof.
  intros Hnd. cbv zeta.
  rewrite validar_fst. unfold df_valido, rechazados.
  rewrite (drop_loc_mask _ _ Hnd). unfold estandarizar_categorias. simpl.
  apply Forall_map, Forall_forall. intros p Hp.
  apply filter_In in Hp as [_ Hp]. apply negb_true_iff in Hp.
  simpl. apply mask_rechazo_false. exact Hp.
Qed.

Lemma validos_al_agregador_witness :
  NoDup (index df_ej)
  /\ Forall (fun p => ~ ViolaRegla hoy_ej (snd p))
       (fst (estandarizar_categorias
               (fst (validar_reglas_negocio hoy_ej df_ej
                       ruta_rechazos_default mundo_ej)))).
Proof.
  assert (H : NoDup (index df_ej)) by (apply nodupb_NoDup; reflexivity).
  split; [exact H |].
  exact (validos_al_agregador hoy_ej df_ej ruta_rechazos_default mundo_ej H).
Defined.
